(** * mcp-image-downloader: the tool server of [src/index.ts]

    A shallow embedding of the MCP server's request handling: the two
    argument type guards, the tool listing, the call dispatcher and the two
    handlers with their [try]/[catch] blocks.  The libraries the server
    calls ([fs-extra], [axios], [sharp], [console], [path]) are
    collaborators: a handler is a program over their calls, and a run of
    the program against an arbitrary environment yields the returned or
    thrown value, the final world and the trace of calls. *)

From Stdlib Require Import Floats.SpecFloat Strings.Ascii Strings.Byte.
From stdpp Require Import gmap strings list.

Set Warnings "-register-all".
Open Scope string_scope.
Open Scope list_scope.

(** ** JavaScript values *)

(** A JavaScript number is an IEEE 754 double: signed zeros, infinities,
    NaN and finite values. *)
Abbreviation number := spec_float.

(** The values an argument bag is made of.  An object is a finite map from
    property names to values. *)
Inductive JSValue : Type :=
| JUndefined
| JNull
| JBool (b : bool)
| JNumber (n : number)
| JString (s : string)
| JArray (elements : list JSValue)
| JObject (properties : gmap string JSValue).

(** [typeof v]. *)
Definition typeof (v : JSValue) : string :=
  match v with
  | JUndefined => "undefined"
  | JNull => "object"
  | JBool _ => "boolean"
  | JNumber _ => "number"
  | JString _ => "string"
  | JArray _ => "object"
  | JObject _ => "object"
  end.

(** Truthiness of a number: [0], [-0] and [NaN] are falsy. *)
Definition number_truthy (n : number) : bool :=
  match n with
  | S754_zero _ => false
  | S754_nan => false
  | S754_infinity _ => true
  | S754_finite _ _ _ => true
  end.

(** [ToBoolean v], the test behind [!v], [if (v)] and [v || w]. *)
Definition ToBoolean (v : JSValue) : bool :=
  match v with
  | JUndefined => false
  | JNull => false
  | JBool b => b
  | JNumber n => number_truthy n
  | JString s => negb (String.eqb s "")
  | JArray _ => true
  | JObject _ => true
  end.

(** The property read [a.key] for the keys the guards read ([url],
    [outputPath], [inputPath], [width], [height], [quality]): an own
    property of an object, [undefined] when the object has none.  None of
    these names is a property of an array or of [Object.prototype]. *)
Definition get (a : JSValue) (key : string) : JSValue :=
  match a with
  | JObject properties => default JUndefined (properties !! key)
  | _ => JUndefined
  end.

(** [v === undefined]. *)
Definition is_undefined (v : JSValue) : bool :=
  match v with
  | JUndefined => true
  | _ => false
  end.

(** ** Argument shapes *)

(** [interface DownloadImageArgs]. *)
Record DownloadImageArgs := {
  dl_url : string;
  dl_outputPath : string;
}.

(** [interface OptimizeImageArgs]; an optional field is [None] when the
    property reads as [undefined]. *)
Record OptimizeImageArgs := {
  opt_inputPath : string;
  opt_outputPath : string;
  opt_width : option number;
  opt_height : option number;
  opt_quality : option number;
}.

(** [isDownloadImageArgs], index.ts lines 53-60. *)
Definition isDownloadImageArgs (args : JSValue) : bool :=
  if negb (ToBoolean args) || negb (String.eqb (typeof args) "object")
  then false
  else
    String.eqb (typeof (get args "url")) "string" &&
    String.eqb (typeof (get args "outputPath")) "string".

(** [isOptimizeImageArgs], index.ts lines 62-72. *)
Definition isOptimizeImageArgs (args : JSValue) : bool :=
  if negb (ToBoolean args) || negb (String.eqb (typeof args) "object")
  then false
  else
    String.eqb (typeof (get args "inputPath")) "string" &&
    String.eqb (typeof (get args "outputPath")) "string" &&
    (is_undefined (get args "width")
     || String.eqb (typeof (get args "width")) "number") &&
    (is_undefined (get args "height")
     || String.eqb (typeof (get args "height")) "number") &&
    (is_undefined (get args "quality")
     || String.eqb (typeof (get args "quality")) "number").

(** The value of a property that a guard found to be a string. *)
Definition string_field (v : JSValue) : string :=
  match v with
  | JString s => s
  | _ => ""
  end.

(** The value of a property that a guard found to be [undefined] or a
    number. *)
Definition number_field (v : JSValue) : option number :=
  match v with
  | JNumber n => Some n
  | _ => None
  end.

(** The optional field back as the JavaScript value the handler tests. *)
Definition optional (field : option number) : JSValue :=
  match field with
  | Some n => JNumber n
  | None => JUndefined
  end.

(** The narrowing [args is DownloadImageArgs]: the same bag, read through
    the interface. *)
Definition asDownloadImageArgs (args : JSValue) : DownloadImageArgs :=
  {| dl_url := string_field (get args "url");
     dl_outputPath := string_field (get args "outputPath") |}.

(** The narrowing [args is OptimizeImageArgs]. *)
Definition asOptimizeImageArgs (args : JSValue) : OptimizeImageArgs :=
  {| opt_inputPath := string_field (get args "inputPath");
     opt_outputPath := string_field (get args "outputPath");
     opt_width := number_field (get args "width");
     opt_height := number_field (get args "height");
     opt_quality := number_field (get args "quality") |}.

(** ** Errors and results *)

(** The members of the SDK's [ErrorCode] that index.ts uses. *)
Inductive ErrorCode := InvalidParams | MethodNotFound.

(** An instance of [Error] as the server sees it: its [message], and the
    [code] that the SDK's [McpError] subclass adds. *)
Record ErrorInstance := {
  message : string;
  code : option ErrorCode;
}.

(** What a [throw] or a rejected promise carries: an [Error] or any other
    value. *)
Inductive Thrown :=
| ThrownError (e : ErrorInstance)
| ThrownValue (v : JSValue).

(** [{ type: 'text', text }]. *)
Record TextContent := {
  content_type : string;
  text : string;
}.

(** The object a handler returns; [isError] is [None] when the literal has
    no such property. *)
Record ToolResult := {
  content : list TextContent;
  isError : option bool;
}.

(** ** Collaborators *)

Abbreviation Buffer := (list Byte.byte).

(** The configuration object passed to [axios]. *)
Record AxiosRequestConfig := {
  req_method : string;
  req_url : string;
  req_responseType : string;
  req_headers : list (string * string);
  req_timeout : Z;
}.

(** The response of [axios]; the handler reads its [data] only. *)
Record AxiosResponse := {
  data : Buffer;
}.

(** The options literal of [resize]. *)
Record ResizeOptions := {
  fit : string;
  withoutEnlargement : bool;
}.

(** The options literal of [jpeg] and [webp]. *)
Record EncoderOptions := {
  quality : option number;
}.

(** A chained method call on a [sharp] instance. *)
Inductive SharpOp :=
| OpResize (width height : option number) (options : ResizeOptions)
| OpJpeg (options : EncoderOptions)
| OpWebp (options : EncoderOptions).

(** A [sharp] instance: its input and the method calls chained on it so
    far, oldest first.  Every chained method returns the instance. *)
Record Sharp := {
  sharp_input : string;
  sharp_ops : list SharpOp;
}.

Definition chain (transformer : Sharp) (op : SharpOp) : Sharp :=
  {| sharp_input := sharp_input transformer;
     sharp_ops := sharp_ops transformer ++ [op] |}.

(** The library calls of index.ts, indexed by what they return. *)
Inductive Effect : Type -> Type :=
| FsEnsureDir (dir : string) : Effect unit
| Axios (config : AxiosRequestConfig) : Effect AxiosResponse
| FsWriteFile (file : string) (contents : Buffer) : Effect unit
| SharpConstruct (input : string) : Effect unit
| SharpMethod (receiver : Sharp) (op : SharpOp) : Effect unit
| SharpToFile (transformer : Sharp) (fileOut : string) : Effect unit
| ConsoleError (label detail : string) : Effect unit.

(** ** Programs *)

(** An [async] function body: it returns, throws, or calls a collaborator
    and continues with what the call returned or threw. *)
Inductive Prog (A : Type) : Type :=
| Ret (a : A)
| Throw (t : Thrown)
| Vis {X : Type} (e : Effect X) (k : Thrown + X -> Prog A).

Arguments Ret {A} a.
Arguments Throw {A} t.
Arguments Vis {A X} e k.

(** A call (awaited where the source awaits): its value, or its exception
    rethrown. *)
Definition call {X : Type} (e : Effect X) : Prog X :=
  Vis e (fun reply =>
    match reply with
    | inl t => Throw t
    | inr x => Ret x
    end).

Fixpoint bind {A B : Type} (p : Prog A) (f : A -> Prog B) : Prog B :=
  match p with
  | Ret a => f a
  | Throw t => Throw t
  | Vis e k => Vis e (fun reply => bind (k reply) f)
  end.

(** [try { body } catch (error) { handler }]. *)
Fixpoint try_catch {A : Type} (body : Prog A) (handler : Thrown -> Prog A)
  : Prog A :=
  match body with
  | Ret a => Ret a
  | Throw t => handler t
  | Vis e k => Vis e (fun reply => try_catch (k reply) handler)
  end.

Declare Scope prog_scope.
Delimit Scope prog_scope with prog.
Bind Scope prog_scope with Prog.
Notation "x <- p ;; q" := (bind p (fun x => q))
  (at level 100, p at next level, right associativity) : prog_scope.
Notation "p ;; q" := (bind p (fun _ => q))
  (at level 100, right associativity) : prog_scope.
Open Scope prog_scope.

(** ** Running a program *)

(** The environment: what each library call does to the world and what it
    returns or throws.  [console.error] returns. *)
Record Env (World : Type) := {
  fs_ensureDir : string -> World -> (Thrown + unit) * World;
  axios : AxiosRequestConfig -> World -> (Thrown + AxiosResponse) * World;
  fs_writeFile : string -> Buffer -> World -> (Thrown + unit) * World;
  sharp_construct : string -> World -> (Thrown + unit) * World;
  sharp_method : Sharp -> SharpOp -> World -> (Thrown + unit) * World;
  sharp_toFile : Sharp -> string -> World -> (Thrown + unit) * World;
  console_error : string -> string -> World -> World;
}.

Arguments fs_ensureDir {World} _ _ _.
Arguments axios {World} _ _ _.
Arguments fs_writeFile {World} _ _ _ _.
Arguments sharp_construct {World} _ _ _.
Arguments sharp_method {World} _ _ _ _.
Arguments sharp_toFile {World} _ _ _ _.
Arguments console_error {World} _ _ _ _.

Definition perform {World X : Type} (E : Env World) (e : Effect X)
  : World -> (Thrown + X) * World :=
  match e in Effect X return World -> (Thrown + X) * World with
  | FsEnsureDir dir => fs_ensureDir E dir
  | Axios config => axios E config
  | FsWriteFile file contents => fs_writeFile E file contents
  | SharpConstruct input => sharp_construct E input
  | SharpMethod receiver op => sharp_method E receiver op
  | SharpToFile transformer fileOut => sharp_toFile E transformer fileOut
  | ConsoleError label detail => fun w => (inr tt, console_error E label detail w)
  end.

(** One entry of the trace: the call and its reply. *)
Inductive Event :=
| Called {X : Type} (e : Effect X) (reply : Thrown + X).

(** What a run leaves: the value returned ([inr]) or the exception that
    escaped ([inl]), the final world, and the calls made, in order. *)
Record Outcome (World A : Type) := {
  returned : Thrown + A;
  final : World;
  trace : list Event;
}.

Arguments returned {World A} _.
Arguments final {World A} _.
Arguments trace {World A} _.

Fixpoint run {World A : Type} (E : Env World) (p : Prog A) (w : World)
  : Outcome World A :=
  match p with
  | Ret a => {| returned := inr a; final := w; trace := [] |}
  | Throw t => {| returned := inl t; final := w; trace := [] |}
  | Vis e k =>
      let '(reply, w') := perform E e w in
      let rest := run E (k reply) w' in
      {| returned := returned rest;
         final := final rest;
         trace := Called e reply :: trace rest |}
  end.

(** The exception a trace entry ended with, if any. *)
Definition event_failure (ev : Event) : option Thrown :=
  match ev with
  | Called _ (inl t) => Some t
  | Called _ (inr _) => None
  end.

(** The exceptions the collaborators threw during a run. *)
Definition failures (tr : list Event) : list Thrown :=
  omap event_failure tr.

(** ** The [sharp] calls of the optimize handler *)

(** [sharp(input)]. *)
Definition sharp (input : string) : Prog Sharp :=
  call (SharpConstruct input) ;;
  Ret {| sharp_input := input; sharp_ops := [] |}.

(** A chained method: the library checks the call, and the instance comes
    back with the call recorded. *)
Definition method (transformer : Sharp) (op : SharpOp) : Prog Sharp :=
  call (SharpMethod transformer op) ;;
  Ret (chain transformer op).

Definition resize (transformer : Sharp) (width height : option number)
  (options : ResizeOptions) : Prog Sharp :=
  method transformer (OpResize width height options).

Definition jpeg (transformer : Sharp) (options : EncoderOptions) : Prog Sharp :=
  method transformer (OpJpeg options).

Definition webp (transformer : Sharp) (options : EncoderOptions) : Prog Sharp :=
  method transformer (OpWebp options).

(** [a || b]. *)
Definition js_or (a b : JSValue) : JSValue :=
  if ToBoolean a then a else b.

(** [error instanceof Error ? error.message : 'Unknown error occurred']. *)
Definition message_of (error : Thrown) : string :=
  match error with
  | ThrownError e => message e
  | ThrownValue _ => "Unknown error occurred"
  end.

(** ** The tool listing *)

(** One entry of [properties] in an input schema. *)
Record PropertySchema := {
  prop_type : string;
  prop_description : string;
  prop_minimum : option Z;
  prop_maximum : option Z;
}.

Record InputSchema := {
  schema_type : string;
  schema_properties : list (string * PropertySchema);
  schema_required : list string;
}.

Record Tool := {
  tool_name : string;
  tool_description : string;
  tool_inputSchema : InputSchema;
}.

Record ListToolsResult := {
  tools : list Tool;
}.

Definition string_property (description : string) : PropertySchema :=
  {| prop_type := "string"; prop_description := description;
     prop_minimum := None; prop_maximum := None |}.

Definition number_property (description : string) : PropertySchema :=
  {| prop_type := "number"; prop_description := description;
     prop_minimum := None; prop_maximum := None |}.

Definition download_image_tool : Tool :=
  {| tool_name := "download_image";
     tool_description := "Download an image from a URL to a specified path";
     tool_inputSchema :=
       {| schema_type := "object";
          schema_properties :=
            [ ("url", string_property "URL of the image to download");
              ("outputPath", string_property "Path where to save the image") ];
          schema_required := ["url"; "outputPath"] |} |}.

Definition optimize_image_tool : Tool :=
  {| tool_name := "optimize_image";
     tool_description := "Create an optimized version of an image";
     tool_inputSchema :=
       {| schema_type := "object";
          schema_properties :=
            [ ("inputPath", string_property "Path to the input image");
              ("outputPath",
               string_property "Path where to save the optimized image");
              ("width",
               number_property
                 "Target width (maintains aspect ratio if only width is specified)");
              ("height",
               number_property
                 "Target height (maintains aspect ratio if only height is specified)");
              ("quality",
               {| prop_type := "number";
                  prop_description := "JPEG/WebP quality (1-100)";
                  prop_minimum := Some 1%Z;
                  prop_maximum := Some 100%Z |}) ];
          schema_required := ["inputPath"; "outputPath"] |} |}.

(** The [ListToolsRequestSchema] handler, index.ts lines 75-128. *)
Definition listTools : Prog ListToolsResult :=
  Ret {| tools := [download_image_tool; optimize_image_tool] |}.

(** ** An executable environment

    An in-memory world to run the server on: the directories and files of
    a file system, the lines written to the diagnostic stream, and the
    remote resources that can be fetched.  It instantiates [Env] for the
    concrete runs below. *)

Module Sim.

Record World := {
  dirs : list string;
  files : list (string * Buffer);
  stderr : list string;
  remote : list (string * Buffer);
}.

Fixpoint lookup_file {V : Type} (name : string) (l : list (string * V))
  : option V :=
  match l with
  | [] => None
  | (n, v) :: rest => if String.eqb n name then Some v else lookup_file name rest
  end.

Definition error (text : string) : Thrown :=
  ThrownError {| message := text; code := None |}.

(** The characters before the last ['/'], or ["."] when there is none. *)
Fixpoint dirname_chars (path : list Ascii.ascii) : option (list Ascii.ascii) :=
  match path with
  | [] => None
  | c :: rest =>
      match dirname_chars rest with
      | Some dir => Some (c :: dir)
      | None => if Ascii.eqb c "/"%char then Some [] else None
      end
  end.

Definition dirname (path : string) : string :=
  match dirname_chars (String.list_ascii_of_string path) with
  | Some dir => String.string_of_list_ascii dir
  | None => "."
  end.

(** A rendering of the error; the SDK has its own. *)
Definition McpError_message (c : ErrorCode) (reason : string) : string :=
  "MCP error: " +:+ reason.

Definition ensureDir (dir : string) (w : World) : (Thrown + unit) * World :=
  if String.eqb dir ""
  then (inl (error "ENOENT: no such file or directory, mkdir"), w)
  else (inr tt,
        {| dirs := dir :: dirs w; files := files w;
           stderr := stderr w; remote := remote w |}).

Definition request (config : AxiosRequestConfig) (w : World)
  : (Thrown + AxiosResponse) * World :=
  match lookup_file (req_url config) (remote w) with
  | Some body => (inr {| data := body |}, w)
  | None => (inl (error "getaddrinfo ENOTFOUND"), w)
  end.

Definition writeFile (file : string) (contents : Buffer) (w : World)
  : (Thrown + unit) * World :=
  (inr tt,
   {| dirs := dirs w; files := (file, contents) :: files w;
      stderr := stderr w; remote := remote w |}).

Definition construct (input : string) (w : World) : (Thrown + unit) * World :=
  (inr tt, w).

Definition configure (receiver : Sharp) (op : SharpOp) (w : World)
  : (Thrown + unit) * World :=
  (inr tt, w).

(** The output is a copy of the input: no encoder is involved. *)
Definition toFile (transformer : Sharp) (fileOut : string) (w : World)
  : (Thrown + unit) * World :=
  match lookup_file (sharp_input transformer) (files w) with
  | Some body => writeFile fileOut body w
  | None => (inl (error "Input file is missing"), w)
  end.

Definition log (label detail : string) (w : World) : World :=
  {| dirs := dirs w; files := files w;
     stderr := (label +:+ " " +:+ detail) :: stderr w; remote := remote w |}.

Definition env : Env World :=
  {| fs_ensureDir := ensureDir;
     axios := request;
     fs_writeFile := writeFile;
     sharp_construct := construct;
     sharp_method := configure;
     sharp_toFile := toFile;
     console_error := log |}.

(** A world with one remote image and one local image. *)
Definition start : World :=
  {| dirs := [];
     files := [("in.jpg", [Byte.xff; Byte.xd8])];
     stderr := [];
     remote := [("https://example.com/valid.png", [Byte.x89; Byte.x50])] |}.

(** Requests to run. *)

Definition zero : number := S754_zero false.

(** [100] and [80] as doubles: 25 * 2^2 and 5 * 2^4. *)
Definition hundred : number := S754_finite false 25 2.
Definition eighty : number := S754_finite false 5 4.

Definition empty_download : gmap string JSValue :=
  <["url" := JString ""]> (<["outputPath" := JString ""]> ∅).

Definition valid_download : DownloadImageArgs :=
  {| dl_url := "https://example.com/valid.png";
     dl_outputPath := "./out/a.png" |}.

Definition unreachable_download : DownloadImageArgs :=
  {| dl_url := "https://unreachable.invalid/a.png";
     dl_outputPath := "./out/a.png" |}.

Definition zero_width : gmap string JSValue :=
  <["inputPath" := JString "in.jpg"]>
    (<["outputPath" := JString "out.jpg"]>
       (<["width" := JNumber zero]> ∅)).


Definition resize_and_quality : OptimizeImageArgs :=
  {| opt_inputPath := "in.jpg";
     opt_outputPath := "./out/small.jpg";
     opt_width := Some hundred;
     opt_height := None;
     opt_quality := Some eighty |}.

Definition missing_input : OptimizeImageArgs :=
  {| opt_inputPath := "missing.jpg";
     opt_outputPath := "./out/small.jpg";
     opt_width := None;
     opt_height := None;
     opt_quality := None |}.

(** The directory of both output paths exists. *)
Definition has_out (w : World) : Prop := "./out" ∈ dirs w.

Definition nan_width : OptimizeImageArgs :=
  {| opt_inputPath := "in.jpg";
     opt_outputPath := "out.jpg";
     opt_width := Some S754_nan;
     opt_height := None;
     opt_quality := Some eighty |}.

End Sim.


(** ** What a trace contains *)

(** The arguments of the [resize] calls of a trace. *)
Definition event_resize (ev : Event)
  : option (option number * option number * ResizeOptions) :=
  match ev with
  | Called (SharpMethod _ (OpResize width height options)) _ =>
      Some (width, height, options)
  | Called _ _ => None
  end.

Definition resize_calls (tr : list Event)
  : list (option number * option number * ResizeOptions) :=
  omap event_resize tr.

(** The options of the encoder calls ([jpeg], [webp]) of a trace. *)
Definition event_encoder (ev : Event) : option SharpOp :=
  match ev with
  | Called (SharpMethod _ (OpJpeg options)) _ => Some (OpJpeg options)
  | Called (SharpMethod _ (OpWebp options)) _ => Some (OpWebp options)
  | Called _ _ => None
  end.

Definition encoder_calls (tr : list Event) : list SharpOp :=
  omap event_encoder tr.

(** The instances a trace writes with [toFile]. *)
Definition event_written (ev : Event) : option Sharp :=
  match ev with
  | Called (SharpToFile transformer _) _ => Some transformer
  | Called _ _ => None
  end.

Definition written (tr : list Event) : list Sharp :=
  omap event_written tr.

(** The error result of a handler whose [catch] block ran. *)
Definition failed (prefix : string) (error : Thrown) : ToolResult :=
  {| content :=
       [ {| content_type := "text"; text := prefix +:+ message_of error |} ];
     isError := Some true |}.



(** The request without its [quality]. *)
Definition without_quality (args : OptimizeImageArgs) : OptimizeImageArgs :=
  {| opt_inputPath := opt_inputPath args;
     opt_outputPath := opt_outputPath args;
     opt_width := opt_width args;
     opt_height := opt_height args;
     opt_quality := None |}.

(** [sub] occurs in [s]. *)
Definition contains (s sub : string) : Prop :=
  exists before after, s = before +:+ sub +:+ after.

(** A property that reads as [undefined] or as a number. *)
Definition absent_or_number (v : JSValue) : Prop :=
  v = JUndefined \/ exists n : number, v = JNumber n.


(** ** Programs that only propagate

    The body of each [try] block is a straight line of calls: it has no
    [throw] statement and no [catch] of its own, so an exception in it is
    the exception of the call that just failed. *)

Inductive straight {A : Type} : Prog A -> Prop :=
| straight_Ret (a : A) : straight (Ret a)
| straight_Vis {X : Type} (e : Effect X) (k : Thrown + X -> Prog A) :
    (forall t, k (inl t) = Throw t) ->
    (forall x, straight (k (inr x))) ->
    straight (Vis e k).


(** ** More of what a trace contains *)

(** The chained [sharp] methods a trace calls, in order. *)
Definition event_method (ev : Event) : option SharpOp :=
  match ev with
  | Called (SharpMethod _ op) _ => Some op
  | Called _ _ => None
  end.

Definition method_calls (tr : list Event) : list SharpOp :=
  omap event_method tr.

(** The inputs a trace opens with [sharp(input)]. *)
Definition event_construct (ev : Event) : option string :=
  match ev with
  | Called (SharpConstruct input) _ => Some input
  | Called _ _ => None
  end.

Definition construct_calls (tr : list Event) : list string :=
  omap event_construct tr.

(** The configurations of the [axios] calls of a trace. *)
Definition event_request (ev : Event) : option AxiosRequestConfig :=
  match ev with
  | Called (Axios config) _ => Some config
  | Called _ _ => None
  end.

Definition request_calls (tr : list Event) : list AxiosRequestConfig :=
  omap event_request tr.

(** The responses the [axios] calls of a trace returned. *)
Definition event_response (ev : Event) : option AxiosResponse :=
  match ev with
  | Called e reply =>
      match e in Effect X return Thrown + X -> option AxiosResponse with
      | Axios _ =>
          fun reply =>
            match reply with
            | inr response => Some response
            | inl _ => None
            end
      | _ => fun _ => None
      end reply
  end.

Definition responses (tr : list Event) : list AxiosResponse :=
  omap event_response tr.

(** The files a trace writes with [fs.writeFile], with their contents. *)
Definition event_write (ev : Event) : option (string * Buffer) :=
  match ev with
  | Called (FsWriteFile file contents) _ => Some (file, contents)
  | Called _ _ => None
  end.

Definition write_calls (tr : list Event) : list (string * Buffer) :=
  omap event_write tr.

(** The lines a trace writes with [console.error]: label and detail. *)
Definition event_log (ev : Event) : option (string * string) :=
  match ev with
  | Called (ConsoleError label detail) _ => Some (label, detail)
  | Called _ _ => None
  end.

Definition log_calls (tr : list Event) : list (string * string) :=
  omap event_log tr.

(** The paths a trace hands to a call that creates or writes: the
    directory given to [fs.ensureDir], the file given to [fs.writeFile],
    the file given to [toFile].  What [fs.ensureDir] creates above its
    argument is the library's doing and is not listed. *)
Definition event_target (ev : Event) : option string :=
  match ev with
  | Called (FsEnsureDir dir) _ => Some dir
  | Called (FsWriteFile file _) _ => Some file
  | Called (SharpToFile _ fileOut) _ => Some fileOut
  | Called _ _ => None
  end.

Definition targets (tr : list Event) : list string :=
  omap event_target tr.

(** The chained calls of the optimize handler for a request, in the order
    of index.ts lines 202-212: the resize when a dimension is truthy, then
    [jpeg] and [webp] when the quality is truthy. *)
Definition planned_ops (args : OptimizeImageArgs) : list SharpOp :=
  (if ToBoolean (js_or (optional (opt_width args)) (optional (opt_height args)))
   then [ OpResize (opt_width args) (opt_height args)
            {| fit := "inside"; withoutEnlargement := true |} ]
   else [])
  ++
  (if ToBoolean (optional (opt_quality args))
   then [ OpJpeg {| quality := opt_quality args |};
          OpWebp {| quality := opt_quality args |} ]
   else []).

(** The request without its dimensions. *)
Definition without_dimensions (args : OptimizeImageArgs) : OptimizeImageArgs :=
  {| opt_inputPath := opt_inputPath args;
     opt_outputPath := opt_outputPath args;
     opt_width := None;
     opt_height := None;
     opt_quality := opt_quality args |}.

(** The result of a handler whose [try] block ran to its end. *)
Definition succeeded (confirmation outputPath : string) : ToolResult :=
  {| content :=
       [ {| content_type := "text"; text := confirmation +:+ outputPath |} ];
     isError := None |}.

(** ** The handlers and the dispatcher *)

Section Server.

Context {World : Type} (E : Env World).

(** [path.dirname] of Node's [path] module. *)
Variable path_dirname : string -> string.

(** The [message] that the SDK's [McpError] constructor gives the error it
    builds from a code and a text. *)
Variable McpError_message : ErrorCode -> string -> string.

(** [new McpError(code, text)]. *)
Definition McpError (c : ErrorCode) (reason : string) : Thrown :=
  ThrownError {| message := McpError_message c reason; code := Some c |}.

Definition user_agent : string :=
  "Mozilla/5.0 (Windows NT 10.0; Win64; x64) AppleWebKit/537.36 (KHTML, like Gecko) Chrome/91.0.4472.124 Safari/537.36".

(** The configuration literal of the download, index.ts lines 157-165. *)
Definition download_config (args : DownloadImageArgs) : AxiosRequestConfig :=
  {| req_method := "GET";
     req_url := dl_url args;
     req_responseType := "arraybuffer";
     req_headers := [("User-Agent", user_agent)];
     req_timeout := 30000 |}.

(** [handleDownloadImage], index.ts lines 151-191. *)
Definition handleDownloadImage (args : DownloadImageArgs) : Prog ToolResult :=
  try_catch
    (call (FsEnsureDir (path_dirname (dl_outputPath args))) ;;
     response <- call (Axios (download_config args)) ;;
     call (FsWriteFile (dl_outputPath args) (data response)) ;;
     Ret {| content :=
              [ {| content_type := "text";
                   text := "Successfully downloaded image to "
                           +:+ dl_outputPath args |} ];
            isError := None |})
    (fun error =>
       let errorMessage := message_of error in
       call (ConsoleError "Download error:" errorMessage) ;;
       Ret {| content :=
                [ {| content_type := "text";
                     text := "Failed to download image: " +:+ errorMessage |} ];
              isError := Some true |}).

(** [handleOptimizeImage], index.ts lines 193-238. *)
Definition handleOptimizeImage (args : OptimizeImageArgs) : Prog ToolResult :=
  try_catch
    (call (FsEnsureDir (path_dirname (opt_outputPath args))) ;;
     transformer <- sharp (opt_inputPath args) ;;
     transformer <-
       (if ToBoolean (js_or (optional (opt_width args))
                            (optional (opt_height args)))
        then resize transformer (opt_width args) (opt_height args)
               {| fit := "inside"; withoutEnlargement := true |}
        else Ret transformer) ;;
     transformer <-
       (if ToBoolean (optional (opt_quality args))
        then (encoded <- jpeg transformer {| quality := opt_quality args |} ;;
              webp encoded {| quality := opt_quality args |})
        else Ret transformer) ;;
     call (SharpToFile transformer (opt_outputPath args)) ;;
     Ret {| content :=
              [ {| content_type := "text";
                   text := "Successfully optimized image to "
                           +:+ opt_outputPath args |} ];
            isError := None |})
    (fun error =>
       let errorMessage := message_of error in
       call (ConsoleError "Optimization error:" errorMessage) ;;
       Ret {| content :=
                [ {| content_type := "text";
                     text := "Failed to optimize image: " +:+ errorMessage |} ];
              isError := Some true |}).

(** The [CallToolRequestSchema] handler, index.ts lines 130-148:
    [name] is [request.params.name], [arguments] is
    [request.params.arguments]. *)
Definition callTool (name : string) (arguments : JSValue) : Prog ToolResult :=
  if String.eqb name "download_image" then
    if negb (isDownloadImageArgs arguments)
    then Throw (McpError InvalidParams "Invalid arguments for download_image")
    else handleDownloadImage (asDownloadImageArgs arguments)
  else if String.eqb name "optimize_image" then
    if negb (isOptimizeImageArgs arguments)
    then Throw (McpError InvalidParams "Invalid arguments for optimize_image")
    else handleOptimizeImage (asOptimizeImageArgs arguments)
  else
    Throw (McpError MethodNotFound ("Unknown tool: " +:+ name)).



(** ** Straight-line programs and [try]/[catch] *)

Lemma straight_call {X : Type} (e : Effect X) : straight (call e).
Proof.
  apply straight_Vis.
  - reflexivity.
  - intros x. apply straight_Ret.
Qed.

Lemma straight_bind {A B : Type} (p : Prog A) (f : A -> Prog B) :
  straight p -> (forall a, straight (f a)) -> straight (bind p f).
Proof.
  intros Hp Hf. induction Hp as [a | X e k Hthrow Hk IH]; simpl.
  - apply Hf.
  - apply straight_Vis.
    + intros t. rewrite Hthrow. reflexivity.
    + exact IH.
Qed.

Lemma straight_sharp (input : string) : straight (sharp input).
Proof.
  apply straight_bind; [apply straight_call | intros; apply straight_Ret].
Qed.

Lemma straight_method (transformer : Sharp) (op : SharpOp) :
  straight (method transformer op).
Proof.
  apply straight_bind; [apply straight_call | intros; apply straight_Ret].
Qed.

Create HintDb straight.
#[local] Hint Resolve straight_call straight_sharp straight_method : straight.
#[local] Hint Constructors straight : straight.

Ltac straight_line :=
  repeat first
    [ apply straight_bind; [ | intros ? ]
    | match goal with |- straight (if ?b then _ else _) => destruct b end
    | progress unfold resize, jpeg, webp
    | solve [ auto with straight ] ].


(** A run of [try]/[catch]: the run of the body when it returns, and
    otherwise the run of the body followed by the run of the handler. *)
Lemma run_try_catch {A : Type} (body : Prog A) (handler : Thrown -> Prog A)
  (w : World) :
  run E (try_catch body handler) w =
  match returned (run E body w) with
  | inr _ => run E body w
  | inl t =>
      let caught := run E (handler t) (final (run E body w)) in
      {| returned := returned caught;
         final := final caught;
         trace := trace (run E body w) ++ trace caught |}
  end.
Proof.
  revert w. induction body as [a | t | X e k IH]; intros w; simpl.
  - reflexivity.
  - destruct (run E (handler t) w); reflexivity.
  - destruct (perform E e w) as [reply w']. rewrite (IH reply w').
    cbn [returned final trace].
    destruct (returned (run E (k reply) w')) as [t | a] eqn:Hret;
      cbn [returned final trace]; rewrite ?Hret; reflexivity.
Qed.

(** A straight line either returns with no failed call, or stops at its
    first failed call and throws what that call threw. *)
Lemma run_straight {A : Type} (p : Prog A) (w : World) :
  straight p ->
  (exists a, returned (run E p w) = inr a /\ failures (trace (run E p w)) = [])
  \/
  (exists t pre ev,
      returned (run E p w) = inl t /\
      trace (run E p w) = pre ++ [ev] /\
      failures pre = [] /\
      event_failure ev = Some t).
Proof.
  intros Hp. revert w.
  induction Hp as [a | X e k Hthrow Hk IH]; intros w; simpl.
  - left. exists a. split; reflexivity.
  - destruct (perform E e w) as [[t | x] w']; simpl.
    + right. exists t, [], (Called e (inl t)).
      rewrite Hthrow. simpl. repeat split; reflexivity.
    + destruct (IH x w') as [(a & Hret & Hfail) | (t & pre & ev & Hret & Htr & Hpre & Hev)].
      * left. exists a. split; [exact Hret | exact Hfail].
      * right. exists t, (Called e (inr x) :: pre), ev.
        rewrite Htr. repeat split; assumption.
Qed.

Lemma failures_app (l1 l2 : list Event) :
  failures (l1 ++ l2) = failures l1 ++ failures l2.
Proof. apply omap_app. Qed.


(** ** The tool listing (section 4.1) *)

(** C8: listing the tools returns the two descriptors of index.ts lines
    76-127, [download_image] and [optimize_image] with their schemas and
    the quality bounds 1 and 100; it returns them in every world, so also
    after any earlier request, it makes no library call, leaves the world
    as it found it, and never throws. *)
Theorem listTools_constant (w : World) :
  run E listTools w =
    {| returned := inr {| tools := [download_image_tool; optimize_image_tool] |};
       final := w;
       trace := [] |}
  /\ (forall (B : Type) (earlier : Prog B),
        returned (run E listTools (final (run E earlier w)))
        = returned (run E listTools w)
        /\ final (run E listTools (final (run E earlier w)))
           = final (run E earlier w)
        /\ trace (run E listTools (final (run E earlier w))) = [])
  /\ tool_name <$> [download_image_tool; optimize_image_tool]
     = ["download_image"; "optimize_image"]
  /\ schema_required (tool_inputSchema download_image_tool)
     = ["url"; "outputPath"]
  /\ schema_required (tool_inputSchema optimize_image_tool)
     = ["inputPath"; "outputPath"]
  /\ fst <$> schema_properties (tool_inputSchema optimize_image_tool)
     = ["inputPath"; "outputPath"; "width"; "height"; "quality"]
  /\ schema_properties (tool_inputSchema optimize_image_tool) !! 4%nat
     = Some ("quality",
             {| prop_type := "number";
                prop_description := "JPEG/WebP quality (1-100)";
                prop_minimum := Some 1%Z;
                prop_maximum := Some 100%Z |}).
Proof. repeat split; reflexivity. Qed.

(** ** Dispatch and argument validation (sections 4.2, 4.3) *)

(** What [isDownloadImageArgs] accepts. *)
Lemma isDownloadImageArgs_shape (args : JSValue) :
  isDownloadImageArgs args = true <->
  exists (properties : gmap string JSValue) (url outputPath : string),
    args = JObject properties /\
    get args "url" = JString url /\
    get args "outputPath" = JString outputPath.
Proof.
  split.
  - unfold isDownloadImageArgs.
    destruct args as [ | | b | n | s | l | m]; simpl; try discriminate.
    + destruct b; discriminate.
    + destruct (number_truthy n); discriminate.
    + destruct (negb (String.eqb s "")); discriminate.
    + intros H. apply andb_prop in H as [Hurl Hout].
      destruct (default JUndefined (m !! "url")) as [ | | | | url | | ];
        try discriminate.
      destruct (default JUndefined (m !! "outputPath")) as [ | | | | out | | ];
        try discriminate.
      exists m, url, out. repeat split.
  - intros (m & url & out & -> & Hurl & Hout).
    unfold isDownloadImageArgs. rewrite Hurl, Hout. reflexivity.
Qed.

Lemma absent_or_number_test (v : JSValue) :
  is_undefined v || String.eqb (typeof v) "number" = true <->
  absent_or_number v.
Proof.
  unfold absent_or_number. split.
  - destruct v; simpl; try discriminate; eauto.
  - intros [-> | [n ->]]; reflexivity.
Qed.

(** What [isOptimizeImageArgs] accepts. *)
Lemma isOptimizeImageArgs_shape (args : JSValue) :
  isOptimizeImageArgs args = true <->
  exists (properties : gmap string JSValue) (inputPath outputPath : string),
    args = JObject properties /\
    get args "inputPath" = JString inputPath /\
    get args "outputPath" = JString outputPath /\
    absent_or_number (get args "width") /\
    absent_or_number (get args "height") /\
    absent_or_number (get args "quality").
Proof.
  split.
  - unfold isOptimizeImageArgs.
    destruct args as [ | | b | n | s | l | m];
      cbn [ToBoolean typeof negb orb]; try discriminate.
    + destruct b; discriminate.
    + destruct (number_truthy n); discriminate.
    + destruct (negb (String.eqb s "")); discriminate.
    + cbn [String.eqb Ascii.eqb Bool.eqb andb negb orb].
      intros H.
      apply andb_prop in H as [H Hq]. apply andb_prop in H as [H Hh].
      apply andb_prop in H as [H Hw]. apply andb_prop in H as [Hin Hout].
      apply absent_or_number_test in Hq, Hh, Hw.
      destruct (get (JObject m) "inputPath") as [ | | | | inp | | ] eqn:Ei;
        try discriminate.
      destruct (get (JObject m) "outputPath") as [ | | | | out | | ] eqn:Eo;
        try discriminate.
      exists m, inp, out. repeat split; assumption.
  - intros (m & inp & out & -> & Hin & Hout & Hw & Hh & Hq).
    apply absent_or_number_test in Hq, Hh, Hw.
    unfold isOptimizeImageArgs. rewrite Hin, Hout, Hw, Hh, Hq. reflexivity.
Qed.

(** The narrowing loses nothing: on a bag that passes the guard, the
    fields of the interface are the values the bag's properties read as. *)
Lemma asDownloadImageArgs_faithful (args : JSValue) :
  isDownloadImageArgs args = true ->
  get args "url" = JString (dl_url (asDownloadImageArgs args)) /\
  get args "outputPath" = JString (dl_outputPath (asDownloadImageArgs args)).
Proof.
  intros Hguard.
  apply isDownloadImageArgs_shape in Hguard
    as (properties & url & out & -> & Hurl & Hout).
  unfold asDownloadImageArgs. rewrite Hurl, Hout. split; reflexivity.
Qed.

Lemma asOptimizeImageArgs_faithful (args : JSValue) :
  isOptimizeImageArgs args = true ->
  get args "inputPath" = JString (opt_inputPath (asOptimizeImageArgs args)) /\
  get args "outputPath" = JString (opt_outputPath (asOptimizeImageArgs args)) /\
  get args "width" = optional (opt_width (asOptimizeImageArgs args)) /\
  get args "height" = optional (opt_height (asOptimizeImageArgs args)) /\
  get args "quality" = optional (opt_quality (asOptimizeImageArgs args)).
Proof.
  intros Hguard.
  apply isOptimizeImageArgs_shape in Hguard
    as (properties & inp & out & -> & Hin & Hout & Hw & Hh & Hq).
  unfold asOptimizeImageArgs. rewrite Hin, Hout.
  destruct Hw as [-> | [nw ->]], Hh as [-> | [nh ->]], Hq as [-> | [nq ->]];
    repeat split; reflexivity.
Qed.

(** No handler is a bare [throw]: each starts with a library call. *)
Lemma handleDownloadImage_not_Throw (args : DownloadImageArgs) (t : Thrown) :
  handleDownloadImage args <> Throw t.
Proof. discriminate. Qed.

Lemma handleOptimizeImage_not_Throw (args : OptimizeImageArgs) (t : Thrown) :
  handleOptimizeImage args <> Throw t.
Proof. discriminate. Qed.

(** C2: a call to [download_image] or [optimize_image] is handed to its
    handler exactly when the bag passes the tool's guard; the guard holds
    exactly for an object whose required properties read as strings and,
    for [optimize_image], whose [width], [height] and [quality] each read
    as [undefined] or as a number; when the guard fails the call throws
    the [InvalidParams] error before any library call, in an unchanged
    world; and the guard accepts every string as a URL or a path and every
    number as a width, a height or a quality. *)
Theorem callTool_validates (arguments : JSValue) (w : World) :
  (callTool "download_image" arguments
     = handleDownloadImage (asDownloadImageArgs arguments)
   <-> isDownloadImageArgs arguments = true)
  /\ (isDownloadImageArgs arguments = true <->
      exists (properties : gmap string JSValue) (url outputPath : string),
        arguments = JObject properties /\
        get arguments "url" = JString url /\
        get arguments "outputPath" = JString outputPath)
  /\ (isDownloadImageArgs arguments = false ->
      run E (callTool "download_image" arguments) w =
        {| returned :=
             inl (McpError InvalidParams "Invalid arguments for download_image");
           final := w;
           trace := [] |})
  /\ (callTool "optimize_image" arguments
       = handleOptimizeImage (asOptimizeImageArgs arguments)
      <-> isOptimizeImageArgs arguments = true)
  /\ (isOptimizeImageArgs arguments = true <->
      exists (properties : gmap string JSValue) (inputPath outputPath : string),
        arguments = JObject properties /\
        get arguments "inputPath" = JString inputPath /\
        get arguments "outputPath" = JString outputPath /\
        absent_or_number (get arguments "width") /\
        absent_or_number (get arguments "height") /\
        absent_or_number (get arguments "quality"))
  /\ (isOptimizeImageArgs arguments = false ->
      run E (callTool "optimize_image" arguments) w =
        {| returned :=
             inl (McpError InvalidParams "Invalid arguments for optimize_image");
           final := w;
           trace := [] |})
  /\ (forall url outputPath : string,
        isDownloadImageArgs
          (JObject (<["url" := JString url]>
                      (<["outputPath" := JString outputPath]> ∅))) = true)
  /\ (forall (inputPath outputPath : string) (width height quality : number),
        isOptimizeImageArgs
          (JObject (<["inputPath" := JString inputPath]>
                      (<["outputPath" := JString outputPath]>
                         (<["width" := JNumber width]>
                            (<["height" := JNumber height]>
                               (<["quality" := JNumber quality]> ∅)))))) = true).
Proof.
  split; [ | split; [ | split; [ | split; [ | split; [ | split; [ | split ]]]]]].
  - unfold callTool. cbn [String.eqb Ascii.eqb Bool.eqb].
    destruct (isDownloadImageArgs arguments); cbn [negb]; split; intros H.
    + reflexivity.
    + reflexivity.
    + symmetry in H. apply handleDownloadImage_not_Throw in H. contradiction.
    + discriminate.
  - apply isDownloadImageArgs_shape.
  - intros H. unfold callTool. cbn [String.eqb Ascii.eqb Bool.eqb].
    rewrite H. reflexivity.
  - unfold callTool. cbn [String.eqb Ascii.eqb Bool.eqb].
    destruct (isOptimizeImageArgs arguments); cbn [negb]; split; intros H.
    + reflexivity.
    + reflexivity.
    + symmetry in H. apply handleOptimizeImage_not_Throw in H. contradiction.
    + discriminate.
  - apply isOptimizeImageArgs_shape.
  - intros H. unfold callTool. cbn [String.eqb Ascii.eqb Bool.eqb].
    rewrite H. reflexivity.
  - intros url outputPath. reflexivity.
  - intros inputPath outputPath width height quality. reflexivity.
Qed.

(** C3: a call whose name is neither ['download_image'] nor
    ['optimize_image'] throws the [MethodNotFound] error built from
    ['Unknown tool: '] and the name; the run makes no library call, leaves
    the world unchanged and returns no tool result. *)
Theorem callTool_unknown_tool (name : string) (arguments : JSValue) (w : World) :
  name <> "download_image" ->
  name <> "optimize_image" ->
  callTool name arguments
    = Throw (McpError MethodNotFound ("Unknown tool: " +:+ name))
  /\ run E (callTool name arguments) w =
       {| returned := inl (McpError MethodNotFound ("Unknown tool: " +:+ name));
          final := w;
          trace := [] |}
  /\ (forall result : ToolResult,
        returned (run E (callTool name arguments) w) <> inr result).
Proof.
  intros Hdl Hopt.
  assert (Hcall : callTool name arguments
                  = Throw (McpError MethodNotFound ("Unknown tool: " +:+ name))).
  { unfold callTool.
    destruct (String.eqb_spec name "download_image") as [-> | _];
      [contradiction | ].
    destruct (String.eqb_spec name "optimize_image") as [-> | _];
      [contradiction | ].
    reflexivity. }
  rewrite Hcall. repeat split. intros result. discriminate.
Qed.

(** ** The handlers (sections 4.4, 4.5, 7) *)

(** The [catch] block of both handlers: one line on the diagnostic stream,
    then the error result. *)
Lemma run_catch_block {A : Type} (label detail : string) (result : A) (w : World) :
  run E (call (ConsoleError label detail) ;; Ret result) w =
    {| returned := inr result;
       final := console_error E label detail w;
       trace := [Called (ConsoleError label detail) (inr tt)] |}.
Proof. reflexivity. Qed.

(** A straight body under such a [catch] block: the run is the run of the
    body when no call fails; otherwise the body stops at the failed call,
    the block logs the message and the error result is returned. *)
Lemma run_try_log {A : Type} (body : Prog A) (label : string)
  (mk : string -> A) (w : World) :
  straight body ->
  let out :=
    run E (try_catch body (fun error =>
             let errorMessage := message_of error in
             call (ConsoleError label errorMessage) ;; Ret (mk errorMessage))) w in
  (exists a, out = run E body w /\ returned out = inr a /\ failures (trace out) = [])
  \/
  (exists t pre ev,
      returned out = inr (mk (message_of t)) /\
      trace (run E body w) = pre ++ [ev] /\
      trace out = pre ++ [ev; Called (ConsoleError label (message_of t)) (inr tt)] /\
      failures pre = [] /\
      event_failure ev = Some t /\
      final out = console_error E label (message_of t) (final (run E body w))).
Proof.
  intros Hbody out. subst out. rewrite run_try_catch.
  destruct (run_straight body w Hbody)
    as [(a & Hret & Hfail) | (t & pre & ev & Hret & Htr & Hpre & Hev)].
  - left. exists a. rewrite Hret. repeat split; assumption.
  - right. exists t, pre, ev. rewrite Hret. cbv zeta.
    rewrite run_catch_block. cbn [returned final trace]. rewrite Htr.
    rewrite <- app_assoc. repeat split; assumption.
Qed.

Lemma failures_stop (pre : list Event) (ev logged : Event) (t : Thrown) :
  failures pre = [] ->
  event_failure ev = Some t ->
  event_failure logged = None ->
  failures (pre ++ [ev; logged]) = [t].
Proof.
  intros Hpre Hev Hlog. rewrite failures_app, Hpre. unfold failures. simpl.
  rewrite Hev, Hlog. reflexivity.
Qed.

(** The body of the [try] block of each handler is a straight line. *)
Lemma handleDownloadImage_body_straight (args : DownloadImageArgs) :
  exists body : Prog ToolResult,
    straight body /\
    handleDownloadImage args =
      try_catch body (fun error =>
        let errorMessage := message_of error in
        call (ConsoleError "Download error:" errorMessage) ;;
        Ret {| content :=
                 [ {| content_type := "text";
                      text := "Failed to download image: " +:+ errorMessage |} ];
               isError := Some true |}).
Proof.
  eexists. split; [ | reflexivity ]. straight_line.
Qed.

Lemma handleOptimizeImage_body_straight (args : OptimizeImageArgs) :
  exists body : Prog ToolResult,
    straight body /\
    handleOptimizeImage args =
      try_catch body (fun error =>
        let errorMessage := message_of error in
        call (ConsoleError "Optimization error:" errorMessage) ;;
        Ret {| content :=
                 [ {| content_type := "text";
                      text := "Failed to optimize image: " +:+ errorMessage |} ];
               isError := Some true |}).
Proof.
  eexists. split; [ | reflexivity ]. straight_line.
Qed.

(** What both handlers do with a failure, for a handler given as its
    straight body and its [catch] block. *)
Lemma run_handler_failure (body : Prog ToolResult) (label prefix : string)
  (w : World) :
  straight body ->
  let out :=
    run E (try_catch body (fun error =>
             let errorMessage := message_of error in
             call (ConsoleError label errorMessage) ;;
             Ret {| content :=
                      [ {| content_type := "text";
                           text := prefix +:+ errorMessage |} ];
                    isError := Some true |})) w in
  exists result : ToolResult,
    returned out = inr result /\
    forall t : Thrown,
      t ∈ failures (trace out) ->
      result = failed prefix t /\
      failures (trace out) = [t] /\
      final out = console_error E label (message_of t) (final (run E body w)) /\
      exists pre ev,
        trace (run E body w) = pre ++ [ev] /\
        trace out
          = pre ++ [ev; Called (ConsoleError label (message_of t)) (inr tt)] /\
        failures pre = [] /\
        event_failure ev = Some t.
Proof.
  intros Hbody out. subst out. cbv zeta.
  pose proof (run_try_log body label
                (fun errorMessage =>
                   {| content :=
                        [ {| content_type := "text";
                             text := prefix +:+ errorMessage |} ];
                      isError := Some true |}) w Hbody) as Hrun.
  cbv zeta in Hrun.
  set (out := run E (try_catch body _) w) in *.
  destruct Hrun
    as [(a & _ & Hret & Hfail) | (t & pre & ev & Hret & Hbody_tr & Htr & Hpre & Hev & Hfin)].
  - exists a. split; [exact Hret | ].
    intros t Ht. rewrite Hfail in Ht. apply elem_of_nil in Ht. contradiction.
  - eexists. split; [exact Hret | ].
    assert (Hall : failures (trace out) = [t]).
    { rewrite Htr. apply failures_stop; [assumption | assumption | reflexivity]. }
    intros t' Ht'. rewrite Hall in Ht'. apply list_elem_of_singleton in Ht'.
    subst t'. split; [reflexivity | ]. split; [exact Hall | ].
    split; [exact Hfin | ]. exists pre, ev. repeat split; assumption.
Qed.

(** Each handler returns, whatever its library calls do. *)
Lemma handleDownloadImage_returns (args : DownloadImageArgs) (w : World) :
  exists result : ToolResult,
    returned (run E (handleDownloadImage args) w) = inr result.
Proof.
  destruct (handleDownloadImage_body_straight args) as (body & Hbody & ->).
  destruct (run_handler_failure body "Download error:"
              "Failed to download image: " w Hbody) as (result & Hret & _).
  exists result. exact Hret.
Qed.

Lemma handleOptimizeImage_returns (args : OptimizeImageArgs) (w : World) :
  exists result : ToolResult,
    returned (run E (handleOptimizeImage args) w) = inr result.
Proof.
  destruct (handleOptimizeImage_body_straight args) as (body & Hbody & ->).
  destruct (run_handler_failure body "Optimization error:"
              "Failed to optimize image: " w Hbody) as (result & Hret & _).
  exists result. exact Hret.
Qed.

(** C1: each handler returns a tool result whatever its library calls do;
    when a call of its [try] block throws [t], the result has [isError]
    true and one text item, the handler's prefix followed by the message
    of [t] (the [message] of an [Error], ['Unknown error occurred'] for
    any other thrown value); [t] is the only failure of the run, the
    failed call is the last library call, and all that follows it is the
    line written with [console.error]: no call is made again and nothing
    is thrown to the caller.  So a call of either tool with a bag that
    passes its guard returns a tool result and throws no protocol error. *)
Theorem handlers_catch_failures (download : DownloadImageArgs)
  (optimize : OptimizeImageArgs) (w : World) :
  (exists result : ToolResult,
      returned (run E (handleDownloadImage download) w) = inr result /\
      forall t : Thrown,
        t ∈ failures (trace (run E (handleDownloadImage download) w)) ->
        result =
          {| content :=
               [ {| content_type := "text";
                    text := "Failed to download image: " +:+ message_of t |} ];
             isError := Some true |} /\
        failures (trace (run E (handleDownloadImage download) w)) = [t] /\
        exists pre ev,
          trace (run E (handleDownloadImage download) w)
            = pre ++ [ev; Called (ConsoleError "Download error:" (message_of t))
                                 (inr tt)] /\
          failures pre = [] /\
          event_failure ev = Some t)
  /\ (exists result : ToolResult,
      returned (run E (handleOptimizeImage optimize) w) = inr result /\
      forall t : Thrown,
        t ∈ failures (trace (run E (handleOptimizeImage optimize) w)) ->
        result =
          {| content :=
               [ {| content_type := "text";
                    text := "Failed to optimize image: " +:+ message_of t |} ];
             isError := Some true |} /\
        failures (trace (run E (handleOptimizeImage optimize) w)) = [t] /\
        exists pre ev,
          trace (run E (handleOptimizeImage optimize) w)
            = pre ++ [ev; Called (ConsoleError "Optimization error:" (message_of t))
                                 (inr tt)] /\
          failures pre = [] /\
          event_failure ev = Some t)
  /\ (forall e : ErrorInstance, message_of (ThrownError e) = message e)
  /\ (forall v : JSValue, message_of (ThrownValue v) = "Unknown error occurred")
  /\ (forall arguments : JSValue,
        isDownloadImageArgs arguments = true ->
        exists result : ToolResult,
          returned (run E (callTool "download_image" arguments) w) = inr result)
  /\ (forall arguments : JSValue,
        isOptimizeImageArgs arguments = true ->
        exists result : ToolResult,
          returned (run E (callTool "optimize_image" arguments) w) = inr result).
Proof.
  split; [ | split; [ | split; [ reflexivity | split; [ reflexivity | split ]]]].
  3: { intros arguments Hguard. unfold callTool.
       cbn [String.eqb Ascii.eqb Bool.eqb]. rewrite Hguard. cbn [negb].
       apply handleDownloadImage_returns. }
  3: { intros arguments Hguard. unfold callTool.
       cbn [String.eqb Ascii.eqb Bool.eqb]. rewrite Hguard. cbn [negb].
       apply handleOptimizeImage_returns. }
  - destruct (handleDownloadImage_body_straight download) as (body & Hbody & ->).
    destruct (run_handler_failure body "Download error:"
                "Failed to download image: " w Hbody) as (result & Hret & Hfail).
    exists result. split; [exact Hret | ].
    intros t Ht. destruct (Hfail t Ht) as (-> & Hall & _ & pre & ev & _ & Htr & Hpre & Hev).
    split; [reflexivity | ]. split; [exact Hall | ].
    exists pre, ev. repeat split; assumption.
  - destruct (handleOptimizeImage_body_straight optimize) as (body & Hbody & ->).
    destruct (run_handler_failure body "Optimization error:"
                "Failed to optimize image: " w Hbody) as (result & Hret & Hfail).
    exists result. split; [exact Hret | ].
    intros t Ht. destruct (Hfail t Ht) as (-> & Hall & _ & pre & ev & _ & Htr & Hpre & Hev).
    split; [reflexivity | ]. split; [exact Hall | ].
    exists pre, ev. repeat split; assumption.
Qed.

Lemma append_empty (s : string) : s +:+ "" = s.
Proof.
  induction s as [ | a s IH]; [reflexivity | ].
  change (String a s +:+ "") with (String a (s +:+ "")).
  rewrite IH. reflexivity.
Qed.

Lemma contains_suffix (before sub : string) : contains (before +:+ sub) sub.
Proof. exists before, "". rewrite append_empty. reflexivity. Qed.

Lemma perform_console (label detail : string) (w : World) :
  perform E (ConsoleError label detail) w
  = (inr tt, console_error E label detail w).
Proof. reflexivity. Qed.

(** One library call of a run: its reply and the world it leaves. *)
Ltac run_call :=
  match goal with
  | |- context [perform E (ConsoleError ?label ?detail) ?w] =>
      rewrite (perform_console label detail w); cbn -[perform]
  | |- context [perform E ?e ?w] =>
      let reply := fresh "reply" in
      let w' := fresh "w" in
      let Hcall := fresh "Hcall" in
      destruct (perform E e w) as [[reply | reply] w'] eqn:Hcall;
      cbn -[perform]
  end.

(** C4: a download in which no library call fails makes exactly three
    calls, in this order: [fs.ensureDir] on [path.dirname(outputPath)];
    one [axios] request with method GET, the URL, response type
    ['arraybuffer'], the fixed User-Agent header and a timeout of 30000
    ms; [fs.writeFile] of the whole response data to [outputPath].  The
    result has no [isError] property and its text ends with
    [outputPath]. *)
Theorem download_success (args : DownloadImageArgs) (w : World) :
  failures (trace (run E (handleDownloadImage args) w)) = [] ->
  exists (response : AxiosResponse) (w1 w2 : World),
    fs_ensureDir E (path_dirname (dl_outputPath args)) w = (inr tt, w1) /\
    axios E
      {| req_method := "GET";
         req_url := dl_url args;
         req_responseType := "arraybuffer";
         req_headers := [("User-Agent", user_agent)];
         req_timeout := 30 * 1000 |} w1 = (inr response, w2) /\
    fs_writeFile E (dl_outputPath args) (data response) w2
      = (inr tt, final (run E (handleDownloadImage args) w)) /\
    trace (run E (handleDownloadImage args) w) =
      [ Called (FsEnsureDir (path_dirname (dl_outputPath args))) (inr tt);
        Called (Axios
                  {| req_method := "GET";
                     req_url := dl_url args;
                     req_responseType := "arraybuffer";
                     req_headers := [("User-Agent", user_agent)];
                     req_timeout := 30 * 1000 |}) (inr response);
        Called (FsWriteFile (dl_outputPath args) (data response)) (inr tt) ] /\
    returned (run E (handleDownloadImage args) w) =
      inr {| content :=
               [ {| content_type := "text";
                    text := "Successfully downloaded image to "
                            +:+ dl_outputPath args |} ];
             isError := None |} /\
    contains ("Successfully downloaded image to " +:+ dl_outputPath args)
             (dl_outputPath args).
Proof.
  unfold handleDownloadImage. cbn -[perform].
  run_call; [ discriminate | ].
  run_call; [ discriminate | ].
  run_call; [ discriminate | ].
  intros _. destruct reply, reply1.
  exists reply0, w0, w1. repeat split; try assumption.
  apply contains_suffix.
Qed.

(** A property of the world that no library call destroys holds at the
    end of every run that starts in it. *)
Lemma run_preserves {A : Type} (P : World -> Prop) (p : Prog A) (w : World) :
  (forall (X : Type) (e : Effect X) (w0 : World),
      P w0 -> P (snd (perform E e w0))) ->
  P w -> P (final (run E p w)).
Proof.
  intros Hkeep. revert w.
  induction p as [a | t | X e k IH]; intros w Hw; simpl; try exact Hw.
  specialize (Hkeep X e w Hw).
  destruct (perform E e w) as [reply w']. simpl. apply IH. exact Hkeep.
Qed.

(** A run whose first call returns. *)
Lemma run_first_call {A X : Type} (e : Effect X) (k : Thrown + X -> Prog A)
  (w w1 : World) (x : X) :
  perform E e w = (inr x, w1) ->
  run E (Vis e k) w =
    {| returned := returned (run E (k (inr x)) w1);
       final := final (run E (k (inr x)) w1);
       trace := Called e (inr x) :: trace (run E (k (inr x)) w1) |}.
Proof. intros Hcall. simpl. rewrite Hcall. reflexivity. Qed.

(** A failed run of a handler whose first call, [first], returned. *)
Lemma failed_after_first (P : World -> Prop) (handler body : Prog ToolResult)
  (label prefix : string) (first : Event) (w w1 : World) (t : Thrown) :
  (forall (X : Type) (e : Effect X) (w0 : World),
      P w0 -> P (snd (perform E e w0))) ->
  straight body ->
  handler =
    try_catch body (fun error =>
      let errorMessage := message_of error in
      call (ConsoleError label errorMessage) ;;
      Ret {| content :=
               [ {| content_type := "text"; text := prefix +:+ errorMessage |} ];
             isError := Some true |}) ->
  (exists rest : list Event, trace (run E handler w) = first :: rest) ->
  event_failure first = None ->
  (exists p : Prog ToolResult, final (run E handler w) = final (run E p w1)) ->
  P w1 ->
  t ∈ failures (trace (run E handler w)) ->
  P (final (run E handler w)) /\
  returned (run E handler w) = inr (failed prefix t) /\
  exists pre ev,
    trace (run E handler w)
      = first :: pre ++ [ev; Called (ConsoleError label (message_of t)) (inr tt)] /\
    failures pre = [] /\
    event_failure ev = Some t.
Proof.
  intros Hkeep Hbody -> (rest & Hfirst) Hok (p & Hfinal) Hw1 Ht.
  destruct (run_handler_failure body label prefix w Hbody) as (result & Hret & Hfail).
  destruct (Hfail t Ht) as (-> & _ & _ & pre & ev & _ & Htr & Hpre & Hev).
  split; [ rewrite Hfinal; apply run_preserves; assumption | ].
  split; [ exact Hret | ].
  rewrite Htr in Hfirst. destruct pre as [ | ev0 pre].
  - simpl in Hfirst. injection Hfirst as -> _. congruence.
  - simpl in Hfirst. injection Hfirst as -> _. exists pre, ev.
    split; [ exact Htr | ]. split; [ | exact Hev ].
    unfold failures in *. simpl in Hpre. rewrite Hok in Hpre. exact Hpre.
Qed.

(** C10: when [fs.ensureDir] has returned and a later call of the handler
    fails with [t], the run continues with the [catch] block only: after
    the directory creation come the calls that returned, the failed call
    and the [console.error] line, and the error result is returned.  No
    call undoes the directory creation, so whatever held of the world
    after [fs.ensureDir] and is not destroyed by a library call itself
    (the created directories) still holds when the handler returns. *)
Theorem failed_handler_keeps_directories (P : World -> Prop)
  (download : DownloadImageArgs) (optimize : OptimizeImageArgs)
  (w w1 : World) (t : Thrown) :
  (forall (X : Type) (e : Effect X) (w0 : World),
      P w0 -> P (snd (perform E e w0))) ->
  P w1 ->
  (fs_ensureDir E (path_dirname (dl_outputPath download)) w = (inr tt, w1) ->
   t ∈ failures (trace (run E (handleDownloadImage download) w)) ->
   P (final (run E (handleDownloadImage download) w)) /\
   returned (run E (handleDownloadImage download) w)
     = inr {| content :=
                [ {| content_type := "text";
                     text := "Failed to download image: " +:+ message_of t |} ];
              isError := Some true |} /\
   exists pre ev,
     trace (run E (handleDownloadImage download) w)
       = Called (FsEnsureDir (path_dirname (dl_outputPath download))) (inr tt)
         :: pre ++ [ev; Called (ConsoleError "Download error:" (message_of t))
                               (inr tt)] /\
     failures pre = [] /\
     event_failure ev = Some t)
  /\
  (fs_ensureDir E (path_dirname (opt_outputPath optimize)) w = (inr tt, w1) ->
   t ∈ failures (trace (run E (handleOptimizeImage optimize) w)) ->
   P (final (run E (handleOptimizeImage optimize) w)) /\
   returned (run E (handleOptimizeImage optimize) w)
     = inr {| content :=
                [ {| content_type := "text";
                     text := "Failed to optimize image: " +:+ message_of t |} ];
              isError := Some true |} /\
   exists pre ev,
     trace (run E (handleOptimizeImage optimize) w)
       = Called (FsEnsureDir (path_dirname (opt_outputPath optimize))) (inr tt)
         :: pre ++ [ev; Called (ConsoleError "Optimization error:" (message_of t))
                               (inr tt)] /\
     failures pre = [] /\
     event_failure ev = Some t).
Proof.
  intros Hkeep Hw1. split; intros Hdir Ht.
  - destruct (handleDownloadImage_body_straight download) as (body & Hbody & Heq).
    eapply (failed_after_first P _ body "Download error:"
              "Failed to download image: " _ w w1 t Hkeep Hbody Heq); try assumption.
    + unfold handleDownloadImage. cbn [try_catch bind call].
      erewrite run_first_call by exact Hdir. eexists. reflexivity.
    + reflexivity.
    + unfold handleDownloadImage. cbn [try_catch bind call].
      erewrite run_first_call by exact Hdir. eexists. reflexivity.
  - destruct (handleOptimizeImage_body_straight optimize) as (body & Hbody & Heq).
    eapply (failed_after_first P _ body "Optimization error:"
              "Failed to optimize image: " _ w w1 t Hkeep Hbody Heq); try assumption.
    + unfold handleOptimizeImage. cbn [try_catch bind call].
      erewrite run_first_call by exact Hdir. eexists. reflexivity.
    + reflexivity.
    + unfold handleOptimizeImage. cbn [try_catch bind call].
      erewrite run_first_call by exact Hdir. eexists. reflexivity.
Qed.

(** [if (a || b)] tests whether either operand is truthy. *)
Lemma ToBoolean_js_or (a b : JSValue) :
  ToBoolean (js_or a b) = ToBoolean a || ToBoolean b.
Proof. unfold js_or. destruct (ToBoolean a) eqn:Ha; [exact Ha | reflexivity]. Qed.

Ltac run_calls := cbn -[perform]; repeat run_call.

Ltac elem_cases :=
  repeat match goal with
    | H : _ ∈ [] |- _ => apply elem_of_nil in H; contradiction
    | H : _ ∈ _ :: _ |- _ => apply elem_of_cons in H; destruct H as [H | H]
    end.

(** Without a truthy dimension the run has no [resize]. *)
Lemma optimize_no_resize (args : OptimizeImageArgs) (w : World) :
  ToBoolean (optional (opt_width args)) = false ->
  ToBoolean (optional (opt_height args)) = false ->
  resize_calls (trace (run E (handleOptimizeImage args) w)) = [] /\
  forall transformer width height options,
    transformer ∈ written (trace (run E (handleOptimizeImage args) w)) ->
    OpResize width height options ∉ sharp_ops transformer.
Proof.
  intros Hw Hh. unfold handleOptimizeImage.
  rewrite ToBoolean_js_or, Hw, Hh. cbn [orb].
  destruct (ToBoolean (optional (opt_quality args))); run_calls.
  all: split; [ reflexivity | ].
  all: intros transformer width height options Hin Hop.
  all: unfold written in Hin; simpl in Hin; elem_cases; subst transformer.
  all: simpl in Hop; elem_cases; discriminate.
Qed.

(** C5, as the code has it: the resize step is guarded by
    [args.width || args.height].  When either dimension is truthy (a
    number other than 0, -0 and NaN) the handler calls [resize] at most
    once, only with the two dimensions as given and the options [fit:
    'inside'], [withoutEnlargement: true]; in a run without a failed call
    it calls it exactly once, and the instance written with [toFile] has
    that resize as its first chained call.  When neither dimension is
    truthy, in particular when both are absent, no [resize] call is made
    and nothing written has a resize chained. *)
Theorem optimize_resize_step (args : OptimizeImageArgs) (w : World) :
  (ToBoolean (optional (opt_width args)) = true \/
   ToBoolean (optional (opt_height args)) = true ->
   (forall call,
       call ∈ resize_calls (trace (run E (handleOptimizeImage args) w)) ->
       call = (opt_width args, opt_height args,
               {| fit := "inside"; withoutEnlargement := true |}))
   /\ length (resize_calls (trace (run E (handleOptimizeImage args) w))) <= 1
   /\ (failures (trace (run E (handleOptimizeImage args) w)) = [] ->
       resize_calls (trace (run E (handleOptimizeImage args) w))
         = [ (opt_width args, opt_height args,
              {| fit := "inside"; withoutEnlargement := true |}) ] /\
       exists later : list SharpOp,
         written (trace (run E (handleOptimizeImage args) w))
           = [ {| sharp_input := opt_inputPath args;
                  sharp_ops :=
                    OpResize (opt_width args) (opt_height args)
                      {| fit := "inside"; withoutEnlargement := true |}
                    :: later |} ]))
  /\
  (ToBoolean (optional (opt_width args)) = false ->
   ToBoolean (optional (opt_height args)) = false ->
   resize_calls (trace (run E (handleOptimizeImage args) w)) = [] /\
   forall transformer width height options,
     transformer ∈ written (trace (run E (handleOptimizeImage args) w)) ->
     OpResize width height options ∉ sharp_ops transformer)
  /\
  (opt_width args = None -> opt_height args = None ->
   resize_calls (trace (run E (handleOptimizeImage args) w)) = []).
Proof.
  split; [ | split; [ apply optimize_no_resize | ] ].
  - intros Hdims. unfold handleOptimizeImage. rewrite ToBoolean_js_or.
    replace (ToBoolean (optional (opt_width args))
             || ToBoolean (optional (opt_height args))) with true
      by (destruct Hdims as [-> | ->]; [ reflexivity | rewrite orb_true_r; reflexivity ]).
    destruct (ToBoolean (optional (opt_quality args))); run_calls.
    all: repeat split.
    all: try (intros call Hin; unfold resize_calls in Hin; simpl in Hin;
              elem_cases; subst call; reflexivity).
    all: try (simpl; lia).
    all: try discriminate.
    all: try (intros _; reflexivity).
    all: cbv [chain sharp_ops sharp_input app]; eexists; reflexivity.
  - intros Hw Hh. apply optimize_no_resize; rewrite ?Hw, ?Hh; reflexivity.
Qed.

(** Without a truthy quality the run has no encoder call. *)
Lemma optimize_no_encoders (args : OptimizeImageArgs) (w : World) :
  ToBoolean (optional (opt_quality args)) = false ->
  encoder_calls (trace (run E (handleOptimizeImage args) w)) = [] /\
  forall transformer options,
    transformer ∈ written (trace (run E (handleOptimizeImage args) w)) ->
    (OpJpeg options ∉ sharp_ops transformer) /\
    (OpWebp options ∉ sharp_ops transformer).
Proof.
  intros Hq. unfold handleOptimizeImage. rewrite Hq.
  destruct (ToBoolean (js_or _ _)); run_calls.
  all: split; [ reflexivity | ].
  all: intros transformer options Hin.
  all: unfold written in Hin; simpl in Hin; elem_cases; subst transformer.
  all: split; intros Hop; simpl in Hop; elem_cases; discriminate.
Qed.




(** C9: a width, height or quality of 0 (or -0) passes the guard as a
    number and reaches the handler as that number, and the handler's
    truthiness tests then treat it as absent: with a zero width and the
    height absent or zero, or a zero height and the width absent, the
    handler is the program of the request without dimensions and no run of
    it calls [resize]; with a zero quality it is the program of the
    request without a quality and no run of it calls [jpeg] or [webp]. *)
Theorem optimize_zero_is_absent (inputPath outputPath : string)
  (sw sh sq : bool) (width height quality : option number) (w : World) :
  isOptimizeImageArgs
    (JObject (<["inputPath" := JString inputPath]>
                (<["outputPath" := JString outputPath]>
                   (<["width" := JNumber (S754_zero sw)]>
                      (<["height" := JNumber (S754_zero sh)]>
                         (<["quality" := JNumber (S754_zero sq)]> ∅)))))) = true
  /\ asOptimizeImageArgs
       (JObject (<["inputPath" := JString inputPath]>
                   (<["outputPath" := JString outputPath]>
                      (<["width" := JNumber (S754_zero sw)]>
                         (<["height" := JNumber (S754_zero sh)]>
                            (<["quality" := JNumber (S754_zero sq)]> ∅))))))
     = {| opt_inputPath := inputPath;
          opt_outputPath := outputPath;
          opt_width := Some (S754_zero sw);
          opt_height := Some (S754_zero sh);
          opt_quality := Some (S754_zero sq) |}
  /\ handleOptimizeImage
       {| opt_inputPath := inputPath; opt_outputPath := outputPath;
          opt_width := Some (S754_zero sw); opt_height := None;
          opt_quality := quality |}
     = handleOptimizeImage
         {| opt_inputPath := inputPath; opt_outputPath := outputPath;
            opt_width := None; opt_height := None; opt_quality := quality |}
  /\ handleOptimizeImage
       {| opt_inputPath := inputPath; opt_outputPath := outputPath;
          opt_width := Some (S754_zero sw); opt_height := Some (S754_zero sh);
          opt_quality := quality |}
     = handleOptimizeImage
         {| opt_inputPath := inputPath; opt_outputPath := outputPath;
            opt_width := None; opt_height := None; opt_quality := quality |}
  /\ handleOptimizeImage
       {| opt_inputPath := inputPath; opt_outputPath := outputPath;
          opt_width := None; opt_height := Some (S754_zero sh);
          opt_quality := quality |}
     = handleOptimizeImage
         {| opt_inputPath := inputPath; opt_outputPath := outputPath;
            opt_width := None; opt_height := None; opt_quality := quality |}
  /\ handleOptimizeImage
       {| opt_inputPath := inputPath; opt_outputPath := outputPath;
          opt_width := width; opt_height := height;
          opt_quality := Some (S754_zero sq) |}
     = handleOptimizeImage
         {| opt_inputPath := inputPath; opt_outputPath := outputPath;
            opt_width := width; opt_height := height; opt_quality := None |}
  /\ resize_calls
       (trace (run E (handleOptimizeImage
                        {| opt_inputPath := inputPath;
                           opt_outputPath := outputPath;
                           opt_width := Some (S754_zero sw);
                           opt_height := None;
                           opt_quality := quality |}) w)) = []
  /\ resize_calls
       (trace (run E (handleOptimizeImage
                        {| opt_inputPath := inputPath;
                           opt_outputPath := outputPath;
                           opt_width := Some (S754_zero sw);
                           opt_height := Some (S754_zero sh);
                           opt_quality := quality |}) w)) = []
  /\ encoder_calls
       (trace (run E (handleOptimizeImage
                        {| opt_inputPath := inputPath;
                           opt_outputPath := outputPath;
                           opt_width := width;
                           opt_height := height;
                           opt_quality := Some (S754_zero sq) |}) w)) = [].
Proof.
  repeat split; try reflexivity.
  - apply optimize_no_resize; reflexivity.
  - apply optimize_no_resize; reflexivity.
  - apply optimize_no_encoders; reflexivity.
Qed.

(** C7, as the code has it: the guard of [download_image] tests the type
    of [url] and [outputPath] only, so a bag in which either is the empty
    string is accepted; the call is handed to the handler with those
    values, the handler starts with [fs.ensureDir] on
    [path.dirname(outputPath)], and the call returns a tool result rather
    than throwing. *)
Theorem download_accepts_empty_strings (properties : gmap string JSValue)
  (url outputPath : string) (w : World) :
  get (JObject properties) "url" = JString url ->
  get (JObject properties) "outputPath" = JString outputPath ->
  url = "" \/ outputPath = "" ->
  isDownloadImageArgs (JObject properties) = true /\
  callTool "download_image" (JObject properties)
    = handleDownloadImage {| dl_url := url; dl_outputPath := outputPath |} /\
  (exists result : ToolResult,
      returned (run E (callTool "download_image" (JObject properties)) w)
      = inr result) /\
  (exists reply rest,
      trace (run E (callTool "download_image" (JObject properties)) w)
      = Called (FsEnsureDir (path_dirname outputPath)) reply :: rest).
Proof.
  intros Hurl Hout _.
  assert (Hguard : isDownloadImageArgs (JObject properties) = true).
  { apply isDownloadImageArgs_shape. exists properties, url, outputPath. auto. }
  assert (Hcall : callTool "download_image" (JObject properties)
                  = handleDownloadImage {| dl_url := url; dl_outputPath := outputPath |}).
  { unfold callTool. cbn [String.eqb Ascii.eqb Bool.eqb].
    rewrite Hguard. cbn [negb]. unfold asDownloadImageArgs.
    rewrite Hurl, Hout. reflexivity. }
  split; [ exact Hguard | ]. split; [ exact Hcall | ]. rewrite Hcall. split.
  - apply handleDownloadImage_returns.
  - unfold handleDownloadImage. cbn -[perform].
    destruct (perform E _ w) as [reply w']. eexists _, _. reflexivity.
Qed.

(** ** Further properties of the handlers *)

(** X1: an optimize run in which no library call fails is
    [fs.ensureDir] on [path.dirname(outputPath)], [sharp(inputPath)], the
    planned chained calls in their order, and [toFile] of the instance so
    configured to [outputPath]; it returns the confirmation naming
    [outputPath], with no [isError] property. *)
Theorem optimize_success (args : OptimizeImageArgs) (w : World) :
  failures (trace (run E (handleOptimizeImage args) w)) = [] ->
  returned (run E (handleOptimizeImage args) w)
    = inr {| content :=
               [ {| content_type := "text";
                    text := "Successfully optimized image to "
                            +:+ opt_outputPath args |} ];
             isError := None |}
  /\ method_calls (trace (run E (handleOptimizeImage args) w))
     = planned_ops args
  /\ exists steps : list Event,
      trace (run E (handleOptimizeImage args) w)
        = Called (FsEnsureDir (path_dirname (opt_outputPath args))) (inr tt)
          :: Called (SharpConstruct (opt_inputPath args)) (inr tt)
          :: steps
          ++ [ Called (SharpToFile
                         {| sharp_input := opt_inputPath args;
                            sharp_ops := planned_ops args |}
                         (opt_outputPath args)) (inr tt) ]
      /\ method_calls steps = planned_ops args
      /\ length steps = length (planned_ops args).
Proof.
  unfold handleOptimizeImage, planned_ops.
  destruct (ToBoolean (js_or _ _)), (ToBoolean (optional (opt_quality args)));
    run_calls; try discriminate.
  all: intros _; destruct_all unit; split; [ reflexivity | ].
  all: split; [ reflexivity | ].
  - eexists [_; _; _]. repeat split.
  - eexists [_]. repeat split.
  - eexists [_; _]. repeat split.
  - exists []. repeat split.
Qed.

(** X2: [isError] and the diagnostic stream report failure exactly.  A
    run of a handler either has no failed call, writes nothing with
    [console.error] and returns the confirmation without [isError]; or it
    has one failed call, writes one line, the handler's label with the
    error message, and returns the error result. *)
Theorem handlers_report_failure_exactly (download : DownloadImageArgs)
  (optimize : OptimizeImageArgs) (w : World) :
  ((failures (trace (run E (handleDownloadImage download) w)) = [] /\
    log_calls (trace (run E (handleDownloadImage download) w)) = [] /\
    returned (run E (handleDownloadImage download) w)
      = inr (succeeded "Successfully downloaded image to "
               (dl_outputPath download)))
   \/
   (exists t : Thrown,
      failures (trace (run E (handleDownloadImage download) w)) = [t] /\
      log_calls (trace (run E (handleDownloadImage download) w))
        = [("Download error:", message_of t)] /\
      returned (run E (handleDownloadImage download) w)
        = inr (failed "Failed to download image: " t)))
  /\
  ((failures (trace (run E (handleOptimizeImage optimize) w)) = [] /\
    log_calls (trace (run E (handleOptimizeImage optimize) w)) = [] /\
    returned (run E (handleOptimizeImage optimize) w)
      = inr (succeeded "Successfully optimized image to "
               (opt_outputPath optimize)))
   \/
   (exists t : Thrown,
      failures (trace (run E (handleOptimizeImage optimize) w)) = [t] /\
      log_calls (trace (run E (handleOptimizeImage optimize) w))
        = [("Optimization error:", message_of t)] /\
      returned (run E (handleOptimizeImage optimize) w)
        = inr (failed "Failed to optimize image: " t))).
Proof.
  split.
  - unfold handleDownloadImage. run_calls.
    all: first [ left; repeat split; reflexivity
               | right; eexists; repeat split; reflexivity ].
  - unfold handleOptimizeImage.
    destruct (ToBoolean (js_or _ _)), (ToBoolean (optional (opt_quality optimize)));
      run_calls.
    all: first [ left; repeat split; reflexivity
               | right; eexists; repeat split; reflexivity ].
Qed.

(** X3: a download never writes anything but what it fetched.  Every run
    makes at most one request, always with the configuration of the
    download; it calls [fs.writeFile] only after the request returned, at
    most once, on [outputPath] with the data of that response; and when
    [fs.ensureDir] throws, neither a request nor a write is made. *)
Theorem download_writes_only_fetched (args : DownloadImageArgs) (w : World) :
  (request_calls (trace (run E (handleDownloadImage args) w)) = [] \/
   request_calls (trace (run E (handleDownloadImage args) w))
     = [download_config args])
  /\ (write_calls (trace (run E (handleDownloadImage args) w)) = [] \/
      exists response : AxiosResponse,
        responses (trace (run E (handleDownloadImage args) w)) = [response] /\
        write_calls (trace (run E (handleDownloadImage args) w))
          = [(dl_outputPath args, data response)])
  /\ (responses (trace (run E (handleDownloadImage args) w)) = [] ->
      write_calls (trace (run E (handleDownloadImage args) w)) = [])
  /\ (forall (t : Thrown) (w1 : World),
        fs_ensureDir E (path_dirname (dl_outputPath args)) w = (inl t, w1) ->
        request_calls (trace (run E (handleDownloadImage args) w)) = [] /\
        write_calls (trace (run E (handleDownloadImage args) w)) = []).
Proof.
  unfold handleDownloadImage. run_calls.
  all: split; [ | split; [ | split ] ].
  all: try solve [ left; reflexivity | right; reflexivity
                 | right; eexists; split; reflexivity ].
  all: try solve [ intros Hnone; first [ reflexivity | discriminate Hnone ] ].
  all: intros t' w1' Hdir;
    change (fs_ensureDir E (path_dirname (dl_outputPath args)) w)
      with (perform E (FsEnsureDir (path_dirname (dl_outputPath args))) w) in Hdir;
    rewrite Hcall in Hdir;
    first [ discriminate Hdir | split; reflexivity ].
Qed.

(** X4: what the handlers ask for.  The only paths a download hands to
    a creating or writing call are [path.dirname(outputPath)], to
    [fs.ensureDir], and [outputPath], and it makes no [sharp] call; the
    only paths an optimize run hands to such a call are
    [path.dirname(outputPath)] and [outputPath], the only image it opens
    is [inputPath], and it makes no request and no [fs.writeFile]. *)
Theorem handlers_footprint (download : DownloadImageArgs)
  (optimize : OptimizeImageArgs) (w : World) :
  (forall path : string,
      path ∈ targets (trace (run E (handleDownloadImage download) w)) ->
      path = path_dirname (dl_outputPath download) \/
      path = dl_outputPath download)
  /\ construct_calls (trace (run E (handleDownloadImage download) w)) = []
  /\ method_calls (trace (run E (handleDownloadImage download) w)) = []
  /\ written (trace (run E (handleDownloadImage download) w)) = []
  /\ (forall path : string,
        path ∈ targets (trace (run E (handleOptimizeImage optimize) w)) ->
        path = path_dirname (opt_outputPath optimize) \/
        path = opt_outputPath optimize)
  /\ (forall input : string,
        input ∈ construct_calls (trace (run E (handleOptimizeImage optimize) w)) ->
        input = opt_inputPath optimize)
  /\ request_calls (trace (run E (handleOptimizeImage optimize) w)) = []
  /\ write_calls (trace (run E (handleOptimizeImage optimize) w)) = [].
Proof.
  assert (Hdownload :
    (forall path : string,
        path ∈ targets (trace (run E (handleDownloadImage download) w)) ->
        path = path_dirname (dl_outputPath download) \/
        path = dl_outputPath download)
    /\ construct_calls (trace (run E (handleDownloadImage download) w)) = []
    /\ method_calls (trace (run E (handleDownloadImage download) w)) = []
    /\ written (trace (run E (handleDownloadImage download) w)) = []).
  { unfold handleDownloadImage. run_calls.
    all: split; [ | repeat split ].
    all: intros x Hin; unfold targets in Hin; simpl in Hin;
      elem_cases; subst x; auto. }
  destruct Hdownload as (Hpaths & Hconstruct & Hmethod & Hwritten).
  split; [ exact Hpaths | ]. split; [ exact Hconstruct | ].
  split; [ exact Hmethod | ]. split; [ exact Hwritten | ].
  unfold handleOptimizeImage.
  destruct (ToBoolean (js_or _ _)),
           (ToBoolean (optional (opt_quality optimize))); run_calls.
  all: split; [ | split; [ | split; reflexivity ] ].
  all: intros x Hin; unfold targets, construct_calls in Hin; simpl in Hin;
    elem_cases; subst x; auto.
Qed.

(** ** The listing against the dispatcher and the guards *)

Lemma typeof_string (v : JSValue) :
  typeof v = "string" -> exists s : string, v = JString s.
Proof. destruct v; try discriminate. eauto. Qed.

Lemma typeof_number (v : JSValue) :
  typeof v = "number" -> exists n : number, v = JNumber n.
Proof. destruct v; try discriminate. eauto. Qed.

(** Only an object has a property that reads as a string. *)
Lemma get_string_object (a : JSValue) (key s : string) :
  get a key = JString s -> exists properties, a = JObject properties.
Proof. destruct a; try discriminate. eauto. Qed.

Lemma get_insert_ne (properties : gmap string JSValue) (key k : string)
  (value : JSValue) :
  key <> k ->
  get (JObject (<[key := value]> properties)) k = get (JObject properties) k.
Proof. intros Hne. unfold get. rewrite lookup_insert_ne by exact Hne. reflexivity. Qed.

(** X5: the listing and the dispatcher agree on the tool names: a name is
    one of the listed tools exactly when calling it does not throw the
    [MethodNotFound] error. *)
Theorem listed_tools_are_dispatched (name : string) (arguments : JSValue) :
  exists listing : ListToolsResult,
    listTools = Ret listing /\
    (name ∈ tool_name <$> tools listing <->
     callTool name arguments
       <> Throw (McpError MethodNotFound ("Unknown tool: " +:+ name))).
Proof.
  eexists. split; [ reflexivity | ]. cbn [tools fmap list_fmap tool_name
    download_image_tool optimize_image_tool]. unfold callTool. split.
  - intros Hin. elem_cases; subst name; cbn [String.eqb Ascii.eqb Bool.eqb].
    + destruct (isDownloadImageArgs arguments); cbn [negb]; discriminate.
    + destruct (isOptimizeImageArgs arguments); cbn [negb]; discriminate.
  - intros Hcall.
    destruct (String.eqb_spec name "download_image") as [-> | _];
      [ apply elem_of_cons; left; reflexivity | ].
    destruct (String.eqb_spec name "optimize_image") as [-> | _];
      [ apply elem_of_cons; right; apply elem_of_cons; left; reflexivity | ].
    contradiction Hcall. reflexivity.
Qed.

(** X6: the guards enforce the types and the required list of the listed
    schemas, and nothing else of them.  For each listed tool, a call is
    not rejected with the [InvalidParams] error exactly when every
    declared property reads as a value of its declared type, or is not
    required and reads as [undefined]. *)
Theorem guards_enforce_declared_types (arguments : JSValue) :
  exists listing : ListToolsResult,
    listTools = Ret listing /\
    forall t : Tool,
      t ∈ tools listing ->
      (callTool (tool_name t) arguments
         <> Throw (McpError InvalidParams
                     ("Invalid arguments for " +:+ tool_name t))
       <->
       forall (key : string) (p : PropertySchema),
         (key, p) ∈ schema_properties (tool_inputSchema t) ->
         typeof (get arguments key) = prop_type p \/
         ((key ∉ schema_required (tool_inputSchema t)) /\
          get arguments key = JUndefined)).
Proof.
  eexists. split; [ reflexivity | ]. intros t Ht. cbn [tools] in Ht.
  elem_cases; subst t;
    cbn [tool_name tool_inputSchema schema_properties schema_required
         download_image_tool optimize_image_tool];
    unfold callTool; cbn [String.eqb Ascii.eqb Bool.eqb].
  - destruct (isDownloadImageArgs arguments) eqn:Hguard; cbn [negb].
    + split; [ intros _ | discriminate ].
      apply isDownloadImageArgs_shape in Hguard
        as (properties & url & out & -> & Hurl & Hout).
      intros key p Hin. elem_cases; injection Hin as -> ->; left.
      * rewrite Hurl. reflexivity.
      * rewrite Hout. reflexivity.
    + split; [ intros Hcall; contradiction Hcall; reflexivity | ].
      intros Hall. exfalso.
      assert (Hurl : typeof (get arguments "url") = "string").
      { destruct (Hall "url" (string_property "URL of the image to download"))
          as [H | [H _]]; [ apply elem_of_cons; left; reflexivity | exact H | ].
        contradiction H. apply elem_of_cons. left. reflexivity. }
      assert (Hout : typeof (get arguments "outputPath") = "string").
      { destruct (Hall "outputPath" (string_property "Path where to save the image"))
          as [H | [H _]];
          [ apply elem_of_cons; right; apply elem_of_cons; left; reflexivity
          | exact H | ].
        contradiction H. apply elem_of_cons. right. apply elem_of_cons. left.
        reflexivity. }
      apply typeof_string in Hurl as [url Hurl].
      apply typeof_string in Hout as [out Hout].
      destruct (get_string_object _ _ _ Hurl) as [properties ->].
      assert (isDownloadImageArgs (JObject properties) = true) as Hyes
        by (apply isDownloadImageArgs_shape; exists properties, url, out; auto).
      congruence.
  - destruct (isOptimizeImageArgs arguments) eqn:Hguard; cbn [negb].
    + split; [ intros _ | discriminate ].
      apply isOptimizeImageArgs_shape in Hguard
        as (properties & inp & out & -> & Hin & Hout & Hw & Hh & Hq).
      intros key p Hmem. elem_cases; injection Hmem as -> ->.
      * left. rewrite Hin. reflexivity.
      * left. rewrite Hout. reflexivity.
      * destruct Hw as [Hw | [n Hw]]; rewrite Hw;
          [ right; split; [ | reflexivity ] | left; reflexivity ].
        intros Hreq. elem_cases; discriminate.
      * destruct Hh as [Hh | [n Hh]]; rewrite Hh;
          [ right; split; [ | reflexivity ] | left; reflexivity ].
        intros Hreq. elem_cases; discriminate.
      * destruct Hq as [Hq | [n Hq]]; rewrite Hq;
          [ right; split; [ | reflexivity ] | left; reflexivity ].
        intros Hreq. elem_cases; discriminate.
    + split; [ intros Hcall; contradiction Hcall; reflexivity | ].
      intros Hall. exfalso.
      assert (Hin : typeof (get arguments "inputPath") = "string").
      { destruct (Hall "inputPath" (string_property "Path to the input image"))
          as [H | [H _]]; [ apply elem_of_cons; left; reflexivity | exact H | ].
        contradiction H. apply elem_of_cons. left. reflexivity. }
      assert (Hout : typeof (get arguments "outputPath") = "string").
      { destruct (Hall "outputPath"
                    (string_property "Path where to save the optimized image"))
          as [H | [H _]];
          [ apply elem_of_cons; right; apply elem_of_cons; left; reflexivity
          | exact H | ].
        contradiction H. apply elem_of_cons. right. apply elem_of_cons. left.
        reflexivity. }
      assert (Hopt : forall key p,
                 (key, p) ∈ schema_properties (tool_inputSchema optimize_image_tool) ->
                 prop_type p = "number" ->
                 absent_or_number (get arguments key)).
      { intros key p Hmem Hty. destruct (Hall key p Hmem) as [H | [_ H]].
        - right. apply typeof_number. rewrite H. exact Hty.
        - left. exact H. }
      apply typeof_string in Hin as [inp Hin].
      apply typeof_string in Hout as [out Hout].
      destruct (get_string_object _ _ _ Hin) as [properties ->].
      assert (isOptimizeImageArgs (JObject properties) = true) as Hyes.
      { apply isOptimizeImageArgs_shape. exists properties, inp, out.
        split; [ reflexivity | ]. split; [ exact Hin | ]. split; [ exact Hout | ].
        split; [ | split ].
        - eapply Hopt;
            [ cbn; do 2 (apply elem_of_cons; right); apply elem_of_cons; left;
              reflexivity
            | reflexivity ].
        - eapply Hopt;
            [ cbn; do 3 (apply elem_of_cons; right); apply elem_of_cons; left;
              reflexivity
            | reflexivity ].
        - eapply Hopt;
            [ cbn; do 4 (apply elem_of_cons; right); apply elem_of_cons; left;
              reflexivity
            | reflexivity ]. }
      congruence.
Qed.

(** X7: a property the listed schema does not declare is ignored: with or
    without it in the bag, the call is the same program. *)
Theorem callTool_ignores_undeclared (properties : gmap string JSValue)
  (key : string) (value : JSValue) :
  exists listing : ListToolsResult,
    listTools = Ret listing /\
    forall t : Tool,
      t ∈ tools listing ->
      key ∉ fst <$> schema_properties (tool_inputSchema t) ->
      callTool (tool_name t) (JObject (<[key := value]> properties))
      = callTool (tool_name t) (JObject properties).
Proof.
  eexists. split; [ reflexivity | ]. intros t Ht Hkey. cbn [tools] in Ht.
  assert (Hget : forall k : string,
             k ∈ fst <$> schema_properties (tool_inputSchema t) ->
             get (JObject (<[key := value]> properties)) k
             = get (JObject properties) k).
  { intros k Hk. apply get_insert_ne. intros ->. contradiction. }
  elem_cases; subst t;
    cbn [tool_name tool_inputSchema schema_properties
         download_image_tool optimize_image_tool fmap list_fmap fst] in *;
    unfold callTool; cbn [String.eqb Ascii.eqb Bool.eqb].
  - unfold isDownloadImageArgs, asDownloadImageArgs.
    rewrite !(Hget "url"), !(Hget "outputPath") by set_solver.
    reflexivity.
  - unfold isOptimizeImageArgs, asOptimizeImageArgs.
    rewrite !(Hget "inputPath"), !(Hget "outputPath"), !(Hget "width"),
      !(Hget "height"), !(Hget "quality") by set_solver.
    reflexivity.
Qed.

(** ** More on the optimize handler *)

(** X8: [toFile] only ever gets the complete pipeline.  In every run the
    chained calls made are an initial part of the planned ones, in their
    order; and either [toFile] is not called, or it is called once, after
    all the planned calls, on the instance that carries all of them. *)
Theorem optimize_writes_complete_pipeline (args : OptimizeImageArgs) (w : World) :
  method_calls (trace (run E (handleOptimizeImage args) w))
    `prefix_of` planned_ops args
  /\ (written (trace (run E (handleOptimizeImage args) w)) = [] \/
      (method_calls (trace (run E (handleOptimizeImage args) w))
         = planned_ops args /\
       written (trace (run E (handleOptimizeImage args) w))
         = [ {| sharp_input := opt_inputPath args;
                sharp_ops := planned_ops args |} ])).
Proof.
  unfold handleOptimizeImage, planned_ops.
  destruct (ToBoolean (js_or _ _)), (ToBoolean (optional (opt_quality args)));
    run_calls.
  all: split; [ eexists; reflexivity | ].
  all: first [ left; reflexivity | right; split; reflexivity ].
Qed.

(** The values the handler's tests take for absent. *)
Lemma ToBoolean_optional_false (x : option number) :
  ToBoolean (optional x) = false <->
  x = None \/ x = Some S754_nan \/ exists s : bool, x = Some (S754_zero s).
Proof.
  split.
  - destruct x as [[s | s | | s m e] | ]; simpl; try discriminate; eauto.
  - intros [-> | [-> | [s ->]]]; reflexivity.
Qed.

(** X9: a dimension or quality that is not truthy is as good as absent,
    and the values that are not truthy are [undefined], [NaN], [0] and
    [-0]: when neither dimension is truthy the handler is the program of
    the request without dimensions, and when the quality is not truthy it
    is the program of the request without a quality. *)
Theorem optimize_falsy_is_absent (args : OptimizeImageArgs) :
  (forall x : option number,
      ToBoolean (optional x) = false <->
      x = None \/ x = Some S754_nan \/ exists s : bool, x = Some (S754_zero s))
  /\ (ToBoolean (optional (opt_width args)) = false ->
      ToBoolean (optional (opt_height args)) = false ->
      handleOptimizeImage args = handleOptimizeImage (without_dimensions args))
  /\ (ToBoolean (optional (opt_quality args)) = false ->
      handleOptimizeImage args = handleOptimizeImage (without_quality args)).
Proof.
  split; [ exact ToBoolean_optional_false | ]. split.
  - intros Hw Hh. unfold handleOptimizeImage, without_dimensions.
    rewrite ToBoolean_js_or, Hw, Hh. reflexivity.
  - intros Hq. unfold handleOptimizeImage, without_quality.
    rewrite Hq. reflexivity.
Qed.

End Server.

(** ** Concrete runs *)

(** The in-memory environment never removes a directory. *)
Lemma sim_keeps_out (X : Type) (e : Effect X) (w : Sim.World) :
  Sim.has_out w -> Sim.has_out (snd (perform Sim.env e w)).
Proof.
  unfold Sim.has_out. intros Hw. destruct e; simpl.
  - unfold Sim.ensureDir. destruct (String.eqb dir ""); simpl; [exact Hw | ].
    apply elem_of_cons. right. exact Hw.
  - unfold Sim.request. destruct (Sim.lookup_file _ _); exact Hw.
  - exact Hw.
  - exact Hw.
  - exact Hw.
  - unfold Sim.toFile. destruct (Sim.lookup_file _ _); exact Hw.
  - exact Hw.
Qed.

(** C1 at an unreachable host: the download returns the error result with
    the message of the network error. *)
Lemma unreachable_download_caught :
  returned (run Sim.env (handleDownloadImage Sim.dirname Sim.unreachable_download)
              Sim.start)
  = inr {| content :=
             [ {| content_type := "text";
                  text := "Failed to download image: getaddrinfo ENOTFOUND" |} ];
           isError := Some true |}.
Proof.
  destruct (handlers_catch_failures Sim.env Sim.dirname Sim.McpError_message
              Sim.unreachable_download Sim.missing_input Sim.start)
    as ((result & Hret & Hfail) & _).
  rewrite Hret. f_equal.
  apply (Hfail (Sim.error "getaddrinfo ENOTFOUND")).
  vm_compute. constructor.
Defined.

(** C3 at the name ['delete_image']. *)
Lemma delete_image_unknown :
  run Sim.env
    (callTool Sim.dirname Sim.McpError_message "delete_image" JUndefined)
    Sim.start
  = {| returned :=
         inl (McpError Sim.McpError_message MethodNotFound
                "Unknown tool: delete_image");
       final := Sim.start;
       trace := [] |}.
Proof.
  apply (callTool_unknown_tool Sim.env Sim.dirname Sim.McpError_message
           "delete_image" JUndefined Sim.start); discriminate.
Defined.

(** C4 at a reachable URL: the three calls and the confirmation. *)
Lemma valid_download_succeeds :
  failures (trace (run Sim.env (handleDownloadImage Sim.dirname Sim.valid_download)
                     Sim.start)) = []
  /\ exists response : AxiosResponse,
      trace (run Sim.env (handleDownloadImage Sim.dirname Sim.valid_download)
               Sim.start)
      = [ Called (FsEnsureDir "./out") (inr tt);
          Called (Axios {| req_method := "GET";
                           req_url := "https://example.com/valid.png";
                           req_responseType := "arraybuffer";
                           req_headers := [("User-Agent", user_agent)];
                           req_timeout := 30000 |}) (inr response);
          Called (FsWriteFile "./out/a.png" (data response)) (inr tt) ]
      /\ returned (run Sim.env (handleDownloadImage Sim.dirname Sim.valid_download)
                     Sim.start)
         = inr {| content :=
                    [ {| content_type := "text";
                         text := "Successfully downloaded image to ./out/a.png" |} ];
                  isError := None |}.
Proof.
  split; [ reflexivity | ].
  destruct (download_success Sim.env Sim.dirname Sim.valid_download Sim.start
              eq_refl)
    as (response & w1 & w2 & _ & _ & _ & Htrace & Hret & _).
  exists response. split; [ exact Htrace | exact Hret ].
Defined.

(** C5 at width 100: one [resize] with [fit: 'inside'] and
    [withoutEnlargement: true]. *)
Lemma width_hundred_resizes :
  resize_calls
    (trace (run Sim.env (handleOptimizeImage Sim.dirname Sim.resize_and_quality)
              Sim.start))
  = [ (Some Sim.hundred, None,
       {| fit := "inside"; withoutEnlargement := true |}) ].
Proof.
  destruct (optimize_resize_step Sim.env Sim.dirname Sim.resize_and_quality
              Sim.start) as (Htruthy & _).
  destruct (Htruthy (or_introl eq_refl)) as (_ & _ & Hrun).
  destruct (Hrun eq_refl) as (Hcalls & _). exact Hcalls.
Defined.


(** C7 at the bag [{ url: '', outputPath: '' }]. *)
Lemma empty_download_reaches_handler :
  callTool Sim.dirname Sim.McpError_message "download_image"
    (JObject Sim.empty_download)
  = handleDownloadImage Sim.dirname {| dl_url := ""; dl_outputPath := "" |}.
Proof.
  apply (download_accepts_empty_strings Sim.env Sim.dirname Sim.McpError_message
           Sim.empty_download "" "" Sim.start eq_refl eq_refl
           (or_introl eq_refl)).
Defined.

(** C10 at an unreachable host and at a missing input: ["./out"] was
    created and is still there when the error result is returned. *)
Lemma failed_calls_keep_out :
  ~ Sim.has_out Sim.start
  /\ Sim.has_out
    (final (run Sim.env (handleDownloadImage Sim.dirname Sim.unreachable_download)
              Sim.start))
  /\ Sim.has_out
       (final (run Sim.env (handleOptimizeImage Sim.dirname Sim.missing_input)
                 Sim.start)).
Proof.
  split; [ apply not_elem_of_nil | ]. split.
  - destruct (failed_handler_keeps_directories Sim.env Sim.dirname Sim.has_out
                Sim.unreachable_download Sim.missing_input Sim.start
                (snd (Sim.ensureDir "./out" Sim.start))
                (Sim.error "getaddrinfo ENOTFOUND")
                sim_keeps_out ltac:(vm_compute; constructor)) as (Hdl & _).
    apply Hdl; [ reflexivity | vm_compute; constructor ].
  - destruct (failed_handler_keeps_directories Sim.env Sim.dirname Sim.has_out
                Sim.unreachable_download Sim.missing_input Sim.start
                (snd (Sim.ensureDir "./out" Sim.start))
                (Sim.error "Input file is missing")
                sim_keeps_out ltac:(vm_compute; constructor)) as (_ & Hopt).
    apply Hopt; [ reflexivity | vm_compute; constructor ].
Defined.

(** C5 fails for the bag [{ inputPath: 'in.jpg', outputPath: 'out.jpg',
    width: 0 }]: the guard accepts it, the width is present and a number,
    the run has no failed call, and yet no [resize] is called and the
    instance written has nothing chained on it. *)
Lemma zero_width_not_resized :
  isOptimizeImageArgs (JObject Sim.zero_width) = true
  /\ get (JObject Sim.zero_width) "width" = JNumber (S754_zero false)
  /\ opt_width (asOptimizeImageArgs (JObject Sim.zero_width))
     = Some (S754_zero false)
  /\ failures
       (trace (run Sim.env
                 (callTool Sim.dirname Sim.McpError_message "optimize_image"
                    (JObject Sim.zero_width)) Sim.start)) = []
  /\ resize_calls
       (trace (run Sim.env
                 (callTool Sim.dirname Sim.McpError_message "optimize_image"
                    (JObject Sim.zero_width)) Sim.start)) = []
  /\ written
       (trace (run Sim.env
                 (callTool Sim.dirname Sim.McpError_message "optimize_image"
                    (JObject Sim.zero_width)) Sim.start))
     = [ {| sharp_input := "in.jpg"; sharp_ops := [] |} ].
Proof. vm_compute. repeat split. Qed.


(** C7 fails for the bag [{ url: '', outputPath: '' }]: the guard accepts
    it and the call is not rejected; the handler runs ([fs.ensureDir],
    then the request, which fails) and the call returns a tool result. *)
Lemma empty_strings_not_rejected :
  get (JObject Sim.empty_download) "url" = JString ""
  /\ get (JObject Sim.empty_download) "outputPath" = JString ""
  /\ isDownloadImageArgs (JObject Sim.empty_download) = true
  /\ run Sim.env
       (callTool Sim.dirname Sim.McpError_message "download_image"
          (JObject Sim.empty_download)) Sim.start
     = {| returned :=
            inr {| content :=
                     [ {| content_type := "text";
                          text := "Failed to download image: getaddrinfo ENOTFOUND" |} ];
                   isError := Some true |};
          final := Sim.log "Download error:" "getaddrinfo ENOTFOUND"
                     (snd (Sim.ensureDir "." Sim.start));
          trace :=
            [ Called (FsEnsureDir ".") (inr tt);
              Called (Axios (download_config
                               {| dl_url := ""; dl_outputPath := "" |}))
                     (inl (Sim.error "getaddrinfo ENOTFOUND"));
              Called (ConsoleError "Download error:" "getaddrinfo ENOTFOUND")
                     (inr tt) ] |}.
Proof. vm_compute. repeat split. Qed.

(** X1 at width 100 and quality 80: the resize, then [jpeg], then
    [webp]. *)
Lemma resize_and_quality_pipeline :
  method_calls
    (trace (run Sim.env (handleOptimizeImage Sim.dirname Sim.resize_and_quality)
              Sim.start))
  = [ OpResize (Some Sim.hundred) None
        {| fit := "inside"; withoutEnlargement := true |};
      OpJpeg {| quality := Some Sim.eighty |};
      OpWebp {| quality := Some Sim.eighty |} ].
Proof.
  destruct (optimize_success Sim.env Sim.dirname Sim.resize_and_quality
              Sim.start eq_refl) as (_ & Hcalls & _).
  exact Hcalls.
Defined.

(** X7 at the bag [{ url: '', outputPath: '', verbose: true }]. *)
Lemma verbose_is_ignored :
  callTool Sim.dirname Sim.McpError_message "download_image"
    (JObject (<["verbose" := JBool true]> Sim.empty_download))
  = callTool Sim.dirname Sim.McpError_message "download_image"
      (JObject Sim.empty_download).
Proof.
  destruct (callTool_ignores_undeclared Sim.dirname Sim.McpError_message
              Sim.empty_download "verbose" (JBool true))
    as (listing & Hlisting & Hsame).
  injection Hlisting as <-.
  apply (Hsame download_image_tool).
  - apply elem_of_cons. left. reflexivity.
  - cbn. intros Hin.
    apply elem_of_cons in Hin as [Hin | Hin]; [ discriminate Hin | ].
    apply elem_of_cons in Hin as [Hin | Hin]; [ discriminate Hin | ].
    apply elem_of_nil in Hin. exact Hin.
Defined.

(** X9 at a width of [NaN]. *)
Lemma nan_width_is_absent :
  handleOptimizeImage Sim.dirname Sim.nan_width
  = handleOptimizeImage Sim.dirname (without_dimensions Sim.nan_width).
Proof.
  destruct (optimize_falsy_is_absent Sim.dirname Sim.nan_width)
    as (_ & Hdims & _).
  apply Hdims; reflexivity.
Defined.
